(** * A shallow embedding of the CVRP web service [app.py]

    The service is a thin Flask wrapper around the OR-Tools routing solver:
    [handle_vrp_request] validates the JSON request and builds the [data]
    dictionary, [create_distance_matrix] produces the stand-in cost matrix,
    [solve_vrp] configures and runs the solver, and [get_solution_details]
    projects the solver's assignment into the JSON response.

    Python integers are modelled as [Z], Python lists as [list], dictionaries
    with a fixed set of keys as records, and exceptions as the [Raise] case of
    [result].  The [while] loop of [get_solution_details] is modelled with
    fuel ([None] means that the fuel ran out).  The two external libraries,
    [random] and [ortools], are [Variable]s of the enclosing sections; what
    the routing library promises about an assignment it returns is stated
    as [valid_assignment] and appears as a hypothesis wherever a property
    depends on it. *)

From Stdlib Require Import ZArith List Lia Bool String QArith Permutation.
From Stdlib Require Import DecimalString.
Import ListNotations.
Open Scope Z_scope.

(** ** Python values, exceptions and list operations *)

Module Py.

Inductive exn : Type :=
| IndexError                      (* list index out of range *)
| ValueError (msg : string)
| LibraryError (msg : string).    (* anything raised inside ortools *)

Inductive result (A : Type) : Type :=
| Ok (a : A)
| Raise (e : exn).
Arguments Ok {A} a.
Arguments Raise {A} e.

Definition bind {A B : Type} (r : result A) (k : A -> result B) : result B :=
  match r with
  | Ok a => k a
  | Raise e => Raise e
  end.

(** [str(e)] *)
Definition str_exn (e : exn) : string :=
  match e with
  | IndexError => "list index out of range"
  | ValueError msg => msg
  | LibraryError msg => msg
  end.

(** [str(n)] / the [{n}] of an f-string, for an integer *)
Definition str_int (n : Z) : string := NilZero.string_of_int (Z.to_int n).

(** [len(l)] *)
Definition len {A : Type} (l : list A) : Z := Z.of_nat (List.length l).

(** [range(n)]: empty when [n <= 0] *)
Definition range (n : Z) : list Z := map Z.of_nat (seq 0 (Z.to_nat n)).

(** A subscript is taken from the end when negative, and must then fall
    inside the list. *)
Definition position {A : Type} (l : list A) (i : Z) : option nat :=
  let j := if i <? 0 then len l + i else i in
  if (0 <=? j) && (j <? len l) then Some (Z.to_nat j) else None.

(** [l[i]] *)
Definition getitem {A : Type} (l : list A) (i : Z) : result A :=
  match position l i with
  | Some k =>
      match nth_error l k with
      | Some x => Ok x
      | None => Raise IndexError
      end
  | None => Raise IndexError
  end.

Fixpoint update {A : Type} (l : list A) (k : nat) (x : A) : list A :=
  match l, k with
  | [], _ => []
  | _ :: t, O => x :: t
  | h :: t, S k' => h :: update t k' x
  end.

(** [l[i] = x] *)
Definition setitem {A : Type} (l : list A) (i : Z) (x : A) : result (list A) :=
  match position l i with
  | Some k => Ok (update l k x)
  | None => Raise IndexError
  end.

(** [d.get(key, default)] *)
Definition get {A : Type} (field : option A) (default : A) : A :=
  match field with
  | Some v => v
  | None => default
  end.

End Py.

Import Py.

Notation "x <- e ;; k" := (Py.bind e (fun x => k))
(at level 61, e at next level, right associativity).

(** ** [create_distance_matrix] *)

Section DistanceMatrix.

(** [randint k] is the value of the [k]-th call of
    [random.randint(500, 50000)] after [random.seed(42)]. *)
Variable randint : nat -> Z.

(** The inner loop [for j in range(num_locations)], for the row [i]; [k]
    counts the random draws made so far. *)
Fixpoint fill_row (matrix : list (list Z)) (i : Z) (js : list Z)
         (row : list Z) (k : nat) : result (list Z * nat) :=
  match js with
  | [] => Ok (row, k)
  | j :: js' =>
      if i =? j then fill_row matrix i js' (row ++ [0]) k
      else if j <? i then
        r <- getitem matrix j ;;
        x <- getitem r i ;;
        fill_row matrix i js' (row ++ [x]) k
      else
        let distance_in_meters := randint k in
        fill_row matrix i js' (row ++ [distance_in_meters]) (S k)
  end.

(** The outer loop [for i in range(num_locations)]. *)
Fixpoint fill_matrix (num_locations : Z) (rows : list Z)
         (matrix : list (list Z)) (k : nat) : result (list (list Z)) :=
  match rows with
  | [] => Ok matrix
  | i :: rows' =>
      rk <- fill_row matrix i (range num_locations) [] k ;;
      fill_matrix num_locations rows' (matrix ++ [fst rk]) (snd rk)
  end.

Definition create_distance_matrix (num_locations : Z) : result (list (list Z)) :=
  if num_locations <=? 1 then Ok [[0]]
  else fill_matrix num_locations (range num_locations) [] 0%nat.

End DistanceMatrix.


(** ** The request, the [data] dictionary and the response *)

(** One entry of [customer_data], after [int(row['LocationID'])] and
    [int(row['Demand'])]. *)
Record Row : Type := {
  LocationID : Z;
  Demand : Z
}.

(** The JSON body of [POST /solve_vrp]; a key that is absent is [None]. *)
Record Request : Type := {
  req_customer_data : option (list Row);
  req_vehicle_capacities : option (list Z);
  req_depot_index : option Z
}.

(** The dictionary [data] built by [handle_vrp_request]. *)
Record Data : Type := {
  distance_matrix : list (list Z);
  demands : list Z;
  num_locations : Z;
  num_vehicles : Z;
  depot_index : Z;
  vehicle_capacities : list Z
}.

(** One element of the response's [routes]. *)
Record RouteJson : Type := {
  vehicle_id : Z;
  route_nodes : list Z;
  total_distance : Q;
  total_load : Z
}.

(** The response dictionary; a key that is absent is [None].  The quotient
    of Python's true division is kept as the exact rational [n # 1000]. *)
Record ResponseBody : Type := {
  solution_status : string;
  error : option string;
  objective_value : option Q;
  routes : option (list RouteJson)
}.

(** ** The OR-Tools interface used by the service *)

Inductive FirstSolutionStrategy : Type :=
| AUTOMATIC_STRATEGY
| PATH_CHEAPEST_ARC
| SAVINGS
| PARALLEL_CHEAPEST_INSERTION.

Inductive LocalSearchMetaheuristic : Type :=
| AUTOMATIC_METAHEURISTIC
| GREEDY_DESCENT
| GUIDED_LOCAL_SEARCH
| SIMULATED_ANNEALING
| TABU_SEARCH.

(** [pywrapcp.RoutingIndexManager]: the only method used is [IndexToNode]. *)
Record RoutingIndexManager : Type := {
  IndexToNode : Z -> Z
}.

(** [pywrapcp.RoutingModel], as read by [get_solution_details]. *)
Record RoutingModel : Type := {
  routing_Start : Z -> Z;
  routing_End : Z -> Z;
  IsEnd : Z -> bool;
  GetArcCostForVehicle : Z -> Z -> Z -> Z
}.

(** The assignment returned by [SolveWithParameters]: [NextValue i] is
    [solution.Value(routing.NextVar(i))], [CumulValue i] is
    [solution.Value(capacity_dimension.CumulVar(i))] for the dimension
    registered as ['Capacity']. *)
Record Assignment : Type := {
  NextValue : Z -> Z;
  CumulValue : Z -> Z;
  ObjectiveValue : Z
}.

(** Everything [solve_vrp] hands to the library between the construction of
    the index manager and [SolveWithParameters].  The two callbacks close
    over the manager the library creates. *)
Record RoutingProblem : Type := {
  rp_num_nodes : Z;
  rp_num_vehicles : Z;
  rp_depot : Z;
  rp_arc_cost : RoutingIndexManager -> Z -> Z -> result Z;
  rp_demand : RoutingIndexManager -> Z -> result Z;
  rp_slack_max : Z;
  rp_capacities : list Z;
  rp_fix_start_cumul_to_zero : bool;
  rp_dimension_name : string;
  rp_first_solution_strategy : FirstSolutionStrategy;
  rp_local_search_metaheuristic : LocalSearchMetaheuristic;
  rp_time_limit_seconds : Z
}.

Definition Solved : Type :=
  (RoutingModel * RoutingIndexManager * option Assignment)%type.

(** *** What the library promises about an assignment it returns

    [chain isend next i path e]: following [next] from [i] visits exactly
    the indices of [path], none of them an end, and then stands on the end
    index [e]. *)
Fixpoint chain (isend : Z -> bool) (next : Z -> Z) (i : Z) (path : list Z)
         (e : Z) : Prop :=
  match path with
  | [] => i = e /\ isend i = true
  | x :: rest => x = i /\ isend i = false /\ chain isend next (next i) rest e
  end.

(** The arc from [i] is charged what the registered arc-cost callback
    returns. *)
Definition arc_charged (p : RoutingProblem) (r : RoutingModel)
           (m : RoutingIndexManager) (a : Assignment) (v i : Z) : Prop :=
  rp_arc_cost p m i (NextValue a i)
  = Ok (GetArcCostForVehicle r i (NextValue a i) v).

(** The cumulative variable of the dimension grows along the arc from [i] by
    the demand callback's value plus a slack of at most [rp_slack_max], and
    stays between 0 and the vehicle's capacity. *)
Definition load_kept (p : RoutingProblem) (m : RoutingIndexManager)
           (a : Assignment) (cap i : Z) : Prop :=
  exists q,
    rp_demand p m i = Ok q
    /\ 0 <= CumulValue a (NextValue a i) - (CumulValue a i + q) <= rp_slack_max p
    /\ 0 <= CumulValue a i <= cap
    /\ 0 <= CumulValue a (NextValue a i) <= cap.

(** The route of vehicle [v] leaves its start index, visits the indices
    [mids] and reaches its end index; start and end stand for the depot. *)
Definition route_respects (p : RoutingProblem) (r : RoutingModel)
           (m : RoutingIndexManager) (a : Assignment) (v : Z)
           (mids : list Z) : Prop :=
  let path := routing_Start r v :: mids in
  chain (IsEnd r) (NextValue a) (routing_Start r v) path (routing_End r v)
  /\ IndexToNode m (routing_Start r v) = rp_depot p
  /\ IndexToNode m (routing_End r v) = rp_depot p
  /\ Forall (arc_charged p r m a v) path
  /\ exists cap,
       getitem (rp_capacities p) v = Ok cap
       /\ (rp_fix_start_cumul_to_zero p = true ->
           CumulValue a (routing_Start r v) = 0)
       /\ Forall (load_kept p m a cap) path.

(** The nodes other than the depot. *)
Definition customers (num_nodes depot : Z) : list Z :=
  filter (fun n => negb (n =? depot)) (range num_nodes).

(** An assignment for a model without disjunctions: one route per vehicle,
    and every node other than the depot on exactly one of them, once. *)
Definition valid_assignment (p : RoutingProblem) (r : RoutingModel)
           (m : RoutingIndexManager) (a : Assignment) : Prop :=
  exists tours : list (list Z),
    Forall2 (route_respects p r m a) (range (rp_num_vehicles p)) tours
    /\ Permutation (map (IndexToNode m) (List.concat tours))
                   (customers (rp_num_nodes p) (rp_depot p)).

(** ** [solve_vrp] *)

Section Solver.

(** The library: index manager, routing model, registration of the callbacks
    and of the dimension, and [SolveWithParameters], taken together.  The
    assignment is [None] when the search finds no solution. *)
Variable ortools : RoutingProblem -> result Solved.

Definition distance_callback (data : Data) (manager : RoutingIndexManager)
           (from_index to_index : Z) : result Z :=
  let from_node := IndexToNode manager from_index in
  let to_node := IndexToNode manager to_index in
  r <- getitem (distance_matrix data) from_node ;;
  getitem r to_node.

Definition demand_callback (data : Data) (manager : RoutingIndexManager)
           (from_index : Z) : result Z :=
  let from_node := IndexToNode manager from_index in
  getitem (demands data) from_node.

(** The model and the search parameters [solve_vrp] sets up. *)
Definition routing_problem (data : Data) : RoutingProblem := {|
  rp_num_nodes := num_locations data;
  rp_num_vehicles := num_vehicles data;
  rp_depot := depot_index data;
  rp_arc_cost := distance_callback data;
  rp_demand := demand_callback data;
  rp_slack_max := 0;
  rp_capacities := vehicle_capacities data;
  rp_fix_start_cumul_to_zero := true;
  rp_dimension_name := "Capacity";
  rp_first_solution_strategy := PATH_CHEAPEST_ARC;
  rp_local_search_metaheuristic := GUIDED_LOCAL_SEARCH;
  rp_time_limit_seconds := 5
|}.

Definition solve_vrp (data : Data) : result Solved :=
  ortools (routing_problem data).

End Solver.

(** ** [get_solution_details] *)

(** The loop [while not routing.IsEnd(index)] for one vehicle. *)
Fixpoint walk_route (fuel : nat) (data : Data) (manager : RoutingIndexManager)
         (routing : RoutingModel) (solution : Assignment) (vehicle : Z)
         (index : Z) (nodes : list Z) (route_distance : Z)
  : option (list Z * Z) :=
  match fuel with
  | O => None
  | S fuel' =>
      if IsEnd routing index then Some (nodes, route_distance)
      else
        let node_index := IndexToNode manager index in
        let nodes' :=
          if negb (node_index =? depot_index data)
          then nodes ++ [node_index] else nodes in
        let previous_index := index in
        let index' := NextValue solution index in
        let route_distance' :=
          route_distance
          + GetArcCostForVehicle routing previous_index index' vehicle in
        walk_route fuel' data manager routing solution vehicle
                   index' nodes' route_distance'
  end.

(** The loop [for vehicle_id in range(data['num_vehicles'])]. *)
Fixpoint collect_routes (fuel : nat) (data : Data)
         (manager : RoutingIndexManager) (routing : RoutingModel)
         (solution : Assignment) (vehicles : list Z) (acc : list RouteJson)
  : option (list RouteJson) :=
  match vehicles with
  | [] => Some acc
  | v :: rest =>
      match walk_route fuel data manager routing solution v
                       (routing_Start routing v) [] 0 with
      | None => None
      | Some (nodes, route_distance) =>
          let end_index := routing_End routing v in
          let load := CumulValue solution end_index in
          collect_routes fuel data manager routing solution rest
            (acc ++ [{| vehicle_id := v + 1;
                        route_nodes := nodes;
                        total_distance := route_distance # 1000;
                        total_load := load |}])
      end
  end.

Definition no_solution_body : ResponseBody := {|
  solution_status := "NO_SOLUTION";
  error := None;
  objective_value := None;
  routes := Some []
|}.

Definition get_solution_details (fuel : nat) (data : Data)
           (manager : RoutingIndexManager) (routing : RoutingModel)
           (solution : option Assignment) : option ResponseBody :=
  match solution with
  | None => Some no_solution_body
  | Some s =>
      match collect_routes fuel data manager routing s
                           (range (num_vehicles data)) [] with
      | None => None
      | Some rs =>
          Some {| solution_status := "OPTIMAL";
                  error := None;
                  objective_value := Some (ObjectiveValue s # 1000);
                  routes := Some rs |}
      end
  end.

(** ** [handle_vrp_request] *)

(** What the handler does besides returning: it enters [solve_vrp], and it
    prints in the [except] branch. *)
Inductive event : Type :=
| CallSolve (data : Data)
| Printed (line : string).

(** The message of the [ValueError] raised for a [LocationID] out of range. *)
Definition invalid_location_message (loc_id num_customers : Z) : string :=
  ("LocationID " ++ str_int loc_id ++ " غير صالح. يجب أن يكون بين 1 و "
   ++ str_int num_customers ++ ".")%string.

(** The loop [for row in customer_data] that fills [demands]. *)
Fixpoint fill_demands (num_locations num_customers : Z) (rows : list Row)
         (demands : list Z) : result (list Z) :=
  match rows with
  | [] => Ok demands
  | row :: rest =>
      let loc_id := LocationID row in
      let demand := Demand row in
      if (0 <? loc_id) && (loc_id <? num_locations) then
        demands' <- setitem demands loc_id demand ;;
        fill_demands num_locations num_customers rest demands'
      else
        Raise (ValueError (invalid_location_message loc_id num_customers))
  end.

(** The response of the [except] branch, with its status code. *)
Definition error_response (e : exn) : ResponseBody * Z :=
  ({| solution_status := "ERROR";
      error := Some (str_exn e);
      objective_value := None;
      routes := None |}, 500).

Definition error_line (e : exn) : string :=
  ("Error during VRP solving: " ++ str_exn e)%string.

Section Handler.

Variable randint : nat -> Z.
Variable ortools : RoutingProblem -> result Solved.

(** The first step of the handler, up to the dictionary [data]. *)
Definition prepare_data (request_data : Request) : result Data :=
  let customer_data := get (req_customer_data request_data) [] in
  let capacities := get (req_vehicle_capacities request_data) [] in
  let depot := get (req_depot_index request_data) 0 in
  let num_customers := len customer_data in
  let locations := num_customers + 1 in
  let vehicles := len capacities in
  filled <- fill_demands locations num_customers customer_data
                         (repeat 0 (Z.to_nat locations)) ;;
  matrix <- create_distance_matrix randint locations ;;
  Ok {| distance_matrix := matrix;
        demands := filled;
        num_locations := locations;
        num_vehicles := vehicles;
        depot_index := depot;
        vehicle_capacities := capacities |}.

(** The handler returns the response with its HTTP status ([None] when the
    loop of [get_solution_details] does not end within [fuel] steps) and the
    events in the order they happened. *)
Definition handle_vrp_request (fuel : nat) (request_data : Request)
  : option (ResponseBody * Z) * list event :=
  match prepare_data request_data with
  | Raise e => (Some (error_response e), [Printed (error_line e)])
  | Ok data =>
      match solve_vrp ortools data with
      | Raise e =>
          (Some (error_response e), [CallSolve data; Printed (error_line e)])
      | Ok (routing, manager, solution) =>
          match get_solution_details fuel data manager routing solution with
          | None => (None, [CallSolve data])
          | Some response => (Some (response, 200), [CallSolve data])
          end
      end
  end.

End Handler.

(** ** A stand-in for the library, used by the examples

    [standin_solver] lays the indices out as the library does for a single
    depot (one index per node, then the start indices of the vehicles after
    the first, then the end indices), lets vehicle 0 serve every customer in
    increasing order and leaves the other vehicles at the depot.  It answers
    with no assignment when that plan breaks a capacity. *)

Definition lookup (tbl : list (Z * Z)) (i default : Z) : Z :=
  match find (fun kv => fst kv =? i) tbl with
  | Some kv => snd kv
  | None => default
  end.

Fixpoint arcs (path : list Z) : list (Z * Z) :=
  match path with
  | [] => []
  | i :: rest =>
      match rest with
      | [] => []
      | j :: _ => (i, j) :: arcs rest
      end
  end.

Fixpoint loads (demand : Z -> Z) (path : list Z) (acc : Z) : list (Z * Z) :=
  match path with
  | [] => []
  | i :: rest => (i, acc) :: loads demand rest (acc + demand i)
  end.

Definition or_zero (r : result Z) : Z :=
  match r with
  | Ok z => z
  | Raise _ => 0
  end.

Definition sum_Z (l : list Z) : Z := fold_right Z.add 0 l.

Section StandIn.

Variable p : RoutingProblem.

Definition standin_manager : RoutingIndexManager := {|
  IndexToNode := fun i =>
    if (0 <=? i) && (i <? rp_num_nodes p) then i else rp_depot p
|}.

Definition standin_start (v : Z) : Z :=
  if v =? 0 then rp_depot p else rp_num_nodes p + v - 1.

Definition standin_end (v : Z) : Z :=
  rp_num_nodes p + rp_num_vehicles p - 1 + v.

Definition standin_routing : RoutingModel := {|
  routing_Start := standin_start;
  routing_End := standin_end;
  IsEnd := fun i => rp_num_nodes p + rp_num_vehicles p - 1 <=? i;
  GetArcCostForVehicle := fun i j _ =>
    if i =? j then 0 else or_zero (rp_arc_cost p standin_manager i j)
|}.

Definition standin_paths : list (Z * list Z) :=
  map (fun v =>
         (v, if v =? 0
             then (rp_depot p :: customers (rp_num_nodes p) (rp_depot p))
                    ++ [standin_end 0]
             else [standin_start v; standin_end v]))
      (range (rp_num_vehicles p)).

Definition standin_loads : list (Z * list (Z * Z)) :=
  map (fun vp =>
         (fst vp,
          loads (fun i => or_zero (rp_demand p standin_manager i)) (snd vp) 0))
      standin_paths.

Definition standin_assignment : Assignment :=
  let next := flat_map (fun vp => arcs (snd vp)) standin_paths in
  {| NextValue := fun i => lookup next i i;
     CumulValue := fun i => lookup (flat_map snd standin_loads) i 0;
     ObjectiveValue :=
       sum_Z (map (fun ij =>
                     GetArcCostForVehicle standin_routing (fst ij) (snd ij) 0)
                  next) |}.

Definition standin_feasible : bool :=
  (0 <? rp_num_vehicles p)
  && (len (rp_capacities p) =? rp_num_vehicles p)
  && forallb (fun vl =>
                let cap := or_zero (getitem (rp_capacities p) (fst vl)) in
                forallb (fun ic => (0 <=? snd ic) && (snd ic <=? cap)) (snd vl))
             standin_loads.

Definition standin_solver : result Solved :=
  Ok (standin_routing, standin_manager,
      if standin_feasible then Some standin_assignment else None).

End StandIn.

(** A stand-in for [random.randint(500, 50000)]. *)
Definition standin_randint (k : nat) : Z := 500 + Z.of_nat k mod 49501.


(** A row passes the guard [0 < loc_id < num_locations]. *)
Definition valid_row (locations : Z) (row : Row) : bool :=
  (0 <? LocationID row) && (LocationID row <? locations).

(** The [Demand] of the last entry of [rows] whose [LocationID] is [i], and
    0 when there is none. *)
Definition last_demand (rows : list Row) (i : Z) : Z :=
  match find (fun row => LocationID row =? i) (rev rows) with
  | Some row => Demand row
  | None => 0
  end.

(** The cost-matrix contract for [n] locations: [n] rows of [n] non-negative
    entries, with a zero diagonal. *)
Definition cost_matrix (n : Z) (matrix : list (list Z)) : Prop :=
  len matrix = n
  /\ Forall (fun row => len row = n /\ Forall (fun x => 0 <= x) row) matrix
  /\ forall i, 0 <= i < n ->
       exists row, getitem matrix i = Ok row /\ getitem row i = Ok 0.

(** The customers and the fleet of a request, with the defaults of
    [request_data.get]. *)
Definition customer_rows (request_data : Request) : list Row :=
  get (req_customer_data request_data) [].

Definition fleet (request_data : Request) : list Z :=
  get (req_vehicle_capacities request_data) [].

(** The first [a] rows of the matrix under construction: each has [n]
    entries, every entry satisfies [P], and the diagonal is zero. *)
Definition rows_so_far (P : Z -> Prop) (n a : nat) (matrix : list (list Z))
  : Prop :=
  List.length matrix = a
  /\ Forall (fun r => List.length r = n) matrix
  /\ Forall (Forall P) matrix
  /\ forall r, (r < a)%nat ->
       exists row, nth_error matrix r = Some row /\ nth_error row r = Some 0.

(** The cost of driving through [nodes] in order, read off the matrix. *)
Fixpoint path_cost (matrix : list (list Z)) (nodes : list Z) : result Z :=
  match nodes with
  | [] => Ok 0
  | a :: rest =>
      match rest with
      | [] => Ok 0
      | b :: _ =>
          r <- getitem matrix a ;;
          c <- getitem r b ;;
          t <- path_cost matrix rest ;;
          Ok (c + t)
      end
  end.

(** The sum of the demands of [nodes]. *)
Fixpoint route_demand (demands : list Z) (nodes : list Z) : result Z :=
  match nodes with
  | [] => Ok 0
  | n :: rest =>
      q <- getitem demands n ;;
      t <- route_demand demands rest ;;
      Ok (q + t)
  end.

(** What the walk over the route of vehicle [v] accumulates when the route
    visits the indices [path]: the nodes other than the depot, and the cost
    of the arcs leaving them. *)
Definition visited (data : Data) (manager : RoutingIndexManager)
           (path : list Z) : list Z :=
  filter (fun n => negb (n =? depot_index data))
         (map (IndexToNode manager) path).

Definition arc_total (routing : RoutingModel) (solution : Assignment)
           (v : Z) (path : list Z) : Z :=
  sum_Z (map (fun i => GetArcCostForVehicle routing i (NextValue solution i) v)
             path).

(** The response entry for vehicle [v] whose route visits [mids] between its
    start and its end. *)
Definition route_json (manager : RoutingIndexManager) (routing : RoutingModel)
           (solution : Assignment) (v : Z) (mids : list Z) : RouteJson := {|
  vehicle_id := v + 1;
  route_nodes := map (IndexToNode manager) mids;
  total_distance := arc_total routing solution v (routing_Start routing v :: mids) # 1000;
  total_load := CumulValue solution (routing_End routing v)
|}.

Definition optimal_body (solution : Assignment) (rs : list RouteJson)
  : ResponseBody := {|
  solution_status := "OPTIMAL";
  error := None;
  objective_value := Some (ObjectiveValue solution # 1000);
  routes := Some rs
|}.

(** All route lists of a response, one after the other. *)
Definition all_route_nodes (rs : list RouteJson) : list Z :=
  List.concat (map route_nodes rs).

(** The part of [route_respects] the walk relies on: the route of vehicle
    [v] leaves the depot, calls at the indices [mids], none of them the
    depot's, and reaches its end. *)
Definition leaves_depot (data : Data) (manager : RoutingIndexManager)
           (routing : RoutingModel) (solution : Assignment)
           (v : Z) (mids : list Z) : Prop :=
  chain (IsEnd routing) (NextValue solution) (routing_Start routing v)
        (routing_Start routing v :: mids) (routing_End routing v)
  /\ IndexToNode manager (routing_Start routing v) = depot_index data
  /\ Forall (fun i => IndexToNode manager i <> depot_index data) mids.

(** The [routes] of the response for the tours of the vehicles [vs]. *)
Definition routes_of_tours (manager : RoutingIndexManager)
           (routing : RoutingModel) (solution : Assignment)
           (vs : list Z) (tours : list (list Z)) : list RouteJson :=
  map (fun vt => route_json manager routing solution (fst vt) (snd vt))
      (combine vs tours).

(** The demand of all customers and the capacity of the whole fleet. *)
Definition total_customer_demand (data : Data) : result Z :=
  route_demand (demands data)
               (customers (num_locations data) (depot_index data)).

Definition total_capacity (data : Data) : Z :=
  sum_Z (vehicle_capacities data).

(** ** Example requests *)

Definition request_of (rows : list (Z * Z)) (capacities : list Z)
           (depot : option Z) : Request := {|
  req_customer_data :=
    Some (map (fun x => {| LocationID := fst x; Demand := snd x |}) rows);
  req_vehicle_capacities := Some capacities;
  req_depot_index := depot
|}.

(** The data handed to the solver for a request, with the stand-in draws;
    the empty dictionary stands for a request that is refused. *)
Definition data_of (request_data : Request) : Data :=
  match prepare_data standin_randint request_data with
  | Ok data => data
  | Raise _ =>
      {| distance_matrix := []; demands := []; num_locations := 0;
         num_vehicles := 0; depot_index := 0; vehicle_capacities := [] |}
  end.

(** Three customers with demands 2, 3 and 4 and one vehicle of capacity 10. *)
Definition three_customers : Request :=
  request_of [(1, 2); (2, 3); (3, 4)] [10] None.

Definition three_customers_data : Data :=
  Eval vm_compute in data_of three_customers.

(** Two customers, and the second customer's index given as the depot. *)
Definition depot_two : Request :=
  request_of [(1, 5); (2, 7)] [100] (Some 2).

Definition depot_two_data : Data :=
  Eval vm_compute in data_of depot_two.

(** Two customers with demand 6 each and one vehicle of capacity 10. *)
Definition overload : Request :=
  request_of [(1, 6); (2, 6)] [10] None.

Definition overload_data : Data :=
  Eval vm_compute in data_of overload.

(** A [LocationID] past the last customer index. *)
Definition bad_location : Request :=
  request_of [(1, 6); (3, 6)] [10] None.

(** Location 1 named twice, the second time with a negative demand, and
    location 2 not named. *)
Definition rewritten : Request :=
  request_of [(1, 5); (1, -3)] [10] None.

Definition rewritten_data : Data :=
  Eval vm_compute in data_of rewritten.

(** No customers, and no vehicle or a vehicle of negative capacity. *)
Definition no_fleet : Request := request_of [] [] None.

Definition negative_capacity : Request := request_of [] [-5] None.

Definition lone_depot (capacities : list Z) : Data := {|
  distance_matrix := [[0]];
  demands := [0];
  num_locations := 1;
  num_vehicles := len capacities;
  depot_index := 0;
  vehicle_capacities := capacities
|}.

(** The JSON object [{}]: every key is missing. *)
Definition empty_request : Request := {|
  req_customer_data := None;
  req_vehicle_capacities := None;
  req_depot_index := None
|}.

(** No customers and two vehicles. *)
Definition idle_fleet : Request := request_of [] [10; 3] None.

(** The library takes the values of the callbacks and the capacities as
    64-bit integers and raises on one that does not fit.  [checked_solver]
    is the stand-in with that conversion in front of it; its message stands
    for whatever the library reports. *)
Definition fits_int64 (z : Z) : bool :=
  (- 2 ^ 63 <=? z) && (z <? 2 ^ 63).

Definition checked_solver (p : RoutingProblem) : result Solved :=
  if forallb (fun i => fits_int64 (or_zero (rp_demand p (standin_manager p) i)))
             (range (rp_num_nodes p))
     && forallb fits_int64 (rp_capacities p)
  then standin_solver p
  else Raise (LibraryError "integer does not fit in 64 bits").

(** One customer whose demand is 2^63, and one vehicle of capacity 10. *)
Definition oversized : Request :=
  request_of [(1, 9223372036854775808)] [10] None.

Definition oversized_data : Data :=
  Eval vm_compute in data_of oversized.

(** ** Entries of the distance matrix *)

(** The entry of row [i] and column [j], read as [distance_callback] reads
    [data['distance_matrix'][from_node][to_node]]. *)
Definition cell (matrix : list (list Z)) (i j : Z) : result Z :=
  r <- getitem matrix i ;;
  getitem r j.

(** The same entry by position, [None] outside the matrix. *)
Definition entry (matrix : list (list Z)) (r c : nat) : option Z :=
  match nth_error matrix r with
  | Some row => nth_error row c
  | None => None
  end.

(** Where the entries of the row [a] under construction come from: the
    diagonal entry is 0, an entry left of the diagonal is copied from the
    column [a] of an earlier row, an entry right of it is a random draw. *)
Definition row_filled (randint : nat -> Z) (matrix : list (list Z))
           (a : nat) (row : list Z) : Prop :=
  forall j x,
    nth_error row j = Some x ->
    (j = a /\ x = 0)
    \/ ((j < a)%nat /\ entry matrix j a = Some x)
    \/ ((a < j)%nat /\ exists k, x = randint k).

(** The first [a] rows, entry by entry: zero on the diagonal, a random draw
    off it, and equal to the mirrored entry once the mirrored row exists. *)
Definition rows_filled (randint : nat -> Z) (n a : nat)
           (matrix : list (list Z)) : Prop :=
  List.length matrix = a
  /\ Forall (fun r => List.length r = n) matrix
  /\ forall r c x,
       entry matrix r c = Some x ->
       (r = c /\ x = 0)
       \/ (r <> c
           /\ (exists k, x = randint k)
           /\ ((c < a)%nat -> entry matrix c r = Some x)).

(** * Properties *)

(** ** Subscripts *)

Lemma len_nonneg {A : Type} (l : list A) : 0 <= len l.
Proof. unfold len. lia. Qed.

Lemma len_app {A : Type} (l1 l2 : list A) : len (l1 ++ l2) = len l1 + len l2.
Proof. unfold len. rewrite length_app. lia. Qed.

Lemma position_inside {A : Type} (l : list A) (i : Z) :
  0 <= i < len l -> position l i = Some (Z.to_nat i).
Proof.
  intros H. unfold position.
  destruct (Z.ltb_spec i 0) as [Hn | _]; [lia |].
  destruct (Z.leb_spec 0 i) as [_ | Hn]; [| lia].
  destruct (Z.ltb_spec i (len l)) as [_ | Hn]; [reflexivity | lia].
Qed.

Lemma position_nonneg {A : Type} (l : list A) (i : Z) (k : nat) :
  0 <= i -> position l i = Some k -> i < len l /\ k = Z.to_nat i.
Proof.
  intros H. unfold position.
  destruct (Z.ltb_spec i 0) as [Hn | _]; [lia |].
  destruct (Z.leb_spec 0 i) as [_ | Hn]; [| lia].
  destruct (Z.ltb_spec i (len l)) as [Hlt | Hn]; simpl; [| discriminate].
  intros E. injection E as <-. split; [assumption | reflexivity].
Qed.

Lemma getitem_inside {A : Type} (l : list A) (i : Z) (x : A) :
  0 <= i -> nth_error l (Z.to_nat i) = Some x -> getitem l i = Ok x.
Proof.
  intros Hi Hx. unfold getitem.
  assert (Hlen : (Z.to_nat i < List.length l)%nat).
  { apply nth_error_Some. rewrite Hx. discriminate. }
  rewrite position_inside by (unfold len; lia).
  rewrite Hx. reflexivity.
Qed.

Lemma getitem_Ok_inv {A : Type} (l : list A) (i : Z) (x : A) :
  0 <= i -> getitem l i = Ok x ->
  i < len l /\ nth_error l (Z.to_nat i) = Some x.
Proof.
  intros Hi. unfold getitem.
  destruct (position l i) as [k |] eqn:Hp; [| discriminate].
  destruct (position_nonneg l i k Hi Hp) as [Hlt ->].
  destruct (nth_error l (Z.to_nat i)) as [y |]; [| discriminate].
  intros E. injection E as <-. split; [assumption | reflexivity].
Qed.

Lemma getitem_total {A : Type} (l : list A) (i : Z) :
  0 <= i < len l -> exists x, getitem l i = Ok x.
Proof.
  intros H.
  destruct (nth_error l (Z.to_nat i)) as [x |] eqn:E.
  - exists x. apply getitem_inside; [lia | assumption].
  - apply nth_error_None in E. unfold len in H. lia.
Qed.

Lemma update_length {A : Type} (l : list A) (k : nat) (x : A) :
  List.length (update l k x) = List.length l.
Proof.
  revert k. induction l as [| h t IH]; intros [| k]; simpl; auto.
Qed.

Lemma nth_error_update_same {A : Type} (l : list A) (k : nat) (x : A) :
  (k < List.length l)%nat -> nth_error (update l k x) k = Some x.
Proof.
  revert k. induction l as [| h t IH]; intros [| k]; simpl; intros H;
    try lia; auto.
  apply IH. lia.
Qed.

Lemma nth_error_update_other {A : Type} (l : list A) (k j : nat) (x : A) :
  j <> k -> nth_error (update l k x) j = nth_error l j.
Proof.
  revert k j. induction l as [| h t IH]; intros [| k] [| j]; simpl; intros H;
    try congruence; auto.
Qed.

Lemma setitem_inside {A : Type} (l : list A) (i : Z) (x : A) :
  0 <= i < len l -> setitem l i x = Ok (update l (Z.to_nat i) x).
Proof.
  intros H. unfold setitem. rewrite position_inside by assumption. reflexivity.
Qed.

Lemma valid_row_spec (locations : Z) (row : Row) :
  valid_row locations row = true <-> 0 < LocationID row < locations.
Proof.
  unfold valid_row. rewrite andb_true_iff, !Z.ltb_lt. tauto.
Qed.

(** ** The distance matrix *)

Section DistanceMatrixFacts.

Variable randint : nat -> Z.

(** Any property of 0 and of the random draws holds of every entry. *)
Variable P : Z -> Prop.
Hypothesis P_zero : P 0.
Hypothesis P_draw : forall k, P (randint k).

Variable n : nat.

Lemma fill_row_spec (matrix : list (list Z)) (a : nat) :
  (a < n)%nat -> rows_so_far P n a matrix ->
  forall (cnt b : nat) (row : list Z) (k : nat),
    (b + cnt = n)%nat -> List.length row = b -> Forall P row ->
    ((a < b)%nat -> nth_error row a = Some 0) ->
    exists row' k',
      fill_row randint matrix (Z.of_nat a) (map Z.of_nat (seq b cnt)) row k
      = Ok (row', k')
      /\ List.length row' = n /\ Forall P row' /\ nth_error row' a = Some 0.
Proof.
  intros Han (Hlen & Hrows & HP & _).
  induction cnt as [| cnt IH]; intros b row k Hb Hrow HProw Hdiag.
  - simpl. exists row, k. repeat split; auto; try lia. apply Hdiag. lia.
  - simpl.
    destruct (Z.eqb_spec (Z.of_nat a) (Z.of_nat b)) as [E | NE].
    + apply Nat2Z.inj in E. rewrite <- E in *. clear E.
      apply IH; try lia.
      * rewrite length_app. simpl. lia.
      * apply Forall_app. split; [assumption | repeat constructor; assumption].
      * intros _. rewrite nth_error_app2 by lia.
        rewrite Hrow, Nat.sub_diag. reflexivity.
    + destruct (Z.ltb_spec (Z.of_nat b) (Z.of_nat a)) as [Hlt | Hge].
      * assert (Hba : (b < a)%nat) by lia.
        destruct (nth_error matrix b) as [r |] eqn:Er;
          [| apply nth_error_None in Er; lia].
        assert (Hr : List.length r = n).
        { rewrite Forall_forall in Hrows. apply Hrows.
          eapply nth_error_In; eassumption. }
        assert (HPr : Forall P r).
        { rewrite Forall_forall in HP. apply HP.
          eapply nth_error_In; eassumption. }
        destruct (nth_error r a) as [x |] eqn:Ex;
          [| apply nth_error_None in Ex; lia].
        rewrite (getitem_inside matrix (Z.of_nat b) r)
          by (rewrite ?Nat2Z.id; auto; lia).
        simpl.
        rewrite (getitem_inside r (Z.of_nat a) x)
          by (rewrite ?Nat2Z.id; auto; lia).
        simpl.
        apply IH; try lia.
        -- rewrite length_app. simpl. lia.
        -- apply Forall_app. split; [assumption |].
           repeat constructor. rewrite Forall_forall in HPr. apply HPr.
           eapply nth_error_In; eassumption.
      * assert (Hab : (a < b)%nat) by lia.
        apply IH; try lia.
        -- rewrite length_app. simpl. lia.
        -- apply Forall_app. split; [assumption | repeat constructor; apply P_draw].
        -- intros _. rewrite nth_error_app1 by lia. apply Hdiag. assumption.
Qed.

Lemma rows_so_far_snoc (a : nat) (matrix : list (list Z)) (row : list Z) :
  rows_so_far P n a matrix -> List.length row = n -> Forall P row ->
  nth_error row a = Some 0 -> rows_so_far P n (S a) (matrix ++ [row]).
Proof.
  intros (Hlen & Hrows & HP & Hdiag) Hrow HProw Hz.
  repeat split.
  - rewrite length_app. simpl. lia.
  - apply Forall_app. split; [assumption | repeat constructor; assumption].
  - apply Forall_app. split; [assumption | repeat constructor; assumption].
  - intros r Hr. destruct (Nat.eq_dec r a) as [-> | Hne].
    + exists row. split; [| assumption].
      rewrite nth_error_app2 by lia. rewrite Hlen, Nat.sub_diag. reflexivity.
    + destruct (Hdiag r) as (row0 & H1 & H2); [lia |].
      exists row0. split; [| assumption].
      rewrite nth_error_app1 by lia. assumption.
Qed.

Lemma fill_matrix_spec :
  forall (cnt a : nat) (matrix : list (list Z)) (k : nat),
    (a + cnt = n)%nat -> rows_so_far P n a matrix ->
    exists matrix',
      fill_matrix randint (Z.of_nat n) (map Z.of_nat (seq a cnt)) matrix k
      = Ok matrix'
      /\ rows_so_far P n n matrix'.
Proof.
  induction cnt as [| cnt IH]; intros a matrix k Ha Hinv.
  - simpl. exists matrix. split; [reflexivity |].
    assert (E : a = n) by lia. rewrite E in Hinv. assumption.
  - simpl. unfold range. rewrite Nat2Z.id.
    destruct (fill_row_spec matrix a ltac:(lia) Hinv n 0%nat [] k)
      as (row' & k' & Hfill & Hlen & HProw & Hz); auto.
    + intros H. lia.
    + rewrite Hfill. simpl.
      apply IH; [lia |].
      apply rows_so_far_snoc; assumption.
Qed.

Lemma create_distance_matrix_rows :
  1 <= Z.of_nat n ->
  exists matrix,
    create_distance_matrix randint (Z.of_nat n) = Ok matrix
    /\ rows_so_far P n n matrix.
Proof.
  intros Hn. unfold create_distance_matrix.
  destruct (Z.leb_spec (Z.of_nat n) 1) as [Hle | Hgt].
  - assert (E : n = 1%nat) by lia. exists [[0]]. split; [reflexivity |].
    unfold rows_so_far. repeat split; simpl; auto; try lia.
    intros r Hr. assert (r = 0%nat) by lia. subst r.
    exists [0]. split; reflexivity.
  - unfold range. rewrite Nat2Z.id.
    apply fill_matrix_spec; [lia |].
    repeat split; simpl; auto. intros r Hr. lia.
Qed.

End DistanceMatrixFacts.

Lemma rows_so_far_cost_matrix (n : nat) (matrix : list (list Z)) :
  rows_so_far (fun x => 0 <= x) n n matrix -> cost_matrix (Z.of_nat n) matrix.
Proof.
  intros (Hlen & Hrows & HP & Hdiag). unfold cost_matrix, len.
  split; [lia |]. split.
  - rewrite Forall_forall in *. intros row Hin. split.
    + rewrite (Hrows row Hin). reflexivity.
    + apply HP. assumption.
  - intros i Hi. destruct (Hdiag (Z.to_nat i)) as (row & H1 & H2); [lia |].
    exists row. split; apply getitem_inside; auto; lia.
Qed.

(** [create_distance_matrix] raises nothing, whatever the random draws. *)
Lemma create_distance_matrix_total (randint : nat -> Z) (locations : Z) :
  exists matrix, create_distance_matrix randint locations = Ok matrix.
Proof.
  destruct (Z.leb_spec locations 1) as [Hle | Hgt].
  - exists [[0]]. unfold create_distance_matrix.
    destruct (Z.leb_spec locations 1); [reflexivity | lia].
  - destruct (create_distance_matrix_rows randint (fun _ => True) I
                (fun _ => I) (Z.to_nat locations)) as (matrix & H & _);
      [lia |].
    exists matrix. rewrite Z2Nat.id in H by lia. assumption.
Qed.

(** ** Validation of the customers and the demand vector *)

Lemma last_demand_nil (i : Z) : last_demand [] i = 0.
Proof. reflexivity. Qed.

Lemma last_demand_snoc (rows : list Row) (row : Row) (i : Z) :
  last_demand (rows ++ [row]) i
  = if LocationID row =? i then Demand row else last_demand rows i.
Proof.
  unfold last_demand. rewrite rev_app_distr. simpl.
  destruct (LocationID row =? i); reflexivity.
Qed.

Lemma fill_demands_outcome (locations customers_n : Z) (rows : list Row) :
  forall filled,
    len filled = locations ->
    match find (fun row => negb (valid_row locations row)) rows with
    | Some bad =>
        fill_demands locations customers_n rows filled
        = Raise (ValueError
                   (invalid_location_message (LocationID bad) customers_n))
    | None =>
        exists filled',
          fill_demands locations customers_n rows filled = Ok filled'
    end.
Proof.
  induction rows as [| row rest IH]; intros filled Hlen; simpl.
  - exists filled. reflexivity.
  - fold (valid_row locations row).
    destruct (valid_row locations row) eqn:Hv; simpl; [| reflexivity].
    apply valid_row_spec in Hv.
    rewrite setitem_inside by lia. simpl.
    apply IH. unfold len in *. rewrite update_length. assumption.
Qed.

Lemma fill_demands_values (locations customers_n : Z) (rows : list Row) :
  forall seen filled filled',
    len filled = locations ->
    (forall i, 0 <= i < locations ->
               nth_error filled (Z.to_nat i) = Some (last_demand seen i)) ->
    fill_demands locations customers_n rows filled = Ok filled' ->
    len filled' = locations
    /\ forall i, 0 <= i < locations ->
         nth_error filled' (Z.to_nat i) = Some (last_demand (seen ++ rows) i).
Proof.
  induction rows as [| row rest IH]; intros seen filled filled' Hlen Hval;
    simpl.
  - intros E. injection E as <-. rewrite app_nil_r. auto.
  - fold (valid_row locations row).
    destruct (valid_row locations row) eqn:Hv; simpl; [| discriminate].
    apply valid_row_spec in Hv.
    rewrite setitem_inside by lia. simpl. intros Hrest.
    replace (seen ++ row :: rest) with ((seen ++ [row]) ++ rest)
      by (rewrite <- app_assoc; reflexivity).
    apply (IH (seen ++ [row]) _ _) in Hrest; [assumption | |].
    + unfold len in *. rewrite update_length. assumption.
    + intros i Hi. rewrite last_demand_snoc.
      destruct (Z.eqb_spec (LocationID row) i) as [-> | Hne].
      * apply nth_error_update_same. unfold len in Hlen. lia.
      * rewrite nth_error_update_other by lia. apply Hval. assumption.
Qed.

Lemma nth_error_repeat_inside {A : Type} (x : A) (n k : nat) :
  (k < n)%nat -> nth_error (repeat x n) k = Some x.
Proof.
  revert k. induction n as [| n IH]; intros [| k] H; simpl; try lia; auto.
  apply IH. lia.
Qed.

Section HandlerFacts.

Variable randint : nat -> Z.
Variable ortools : RoutingProblem -> result Solved.

(** What [prepare_data] yields: the [ValueError] of the first row that fails
    the guard, or the dictionary handed to [solve_vrp]. *)
Lemma prepare_data_outcome (request_data : Request) :
  let rows := customer_rows request_data in
  match find (fun row => negb (valid_row (len rows + 1) row)) rows with
  | Some bad =>
      prepare_data randint request_data
      = Raise (ValueError
                 (invalid_location_message (LocationID bad) (len rows)))
  | None =>
      exists data,
        prepare_data randint request_data = Ok data
        /\ create_distance_matrix randint (len rows + 1)
           = Ok (distance_matrix data)
        /\ num_locations data = len rows + 1
        /\ num_vehicles data = len (fleet request_data)
        /\ vehicle_capacities data = fleet request_data
        /\ depot_index data = get (req_depot_index request_data) 0
        /\ len (demands data) = len rows + 1
        /\ forall i, 0 <= i < len rows + 1 ->
             nth_error (demands data) (Z.to_nat i) = Some (last_demand rows i)
  end.
Proof.
  intros rows. unfold prepare_data. fold (customer_rows request_data).
  fold rows. fold (fleet request_data).
  assert (Hlen0 : len (repeat 0 (Z.to_nat (len rows + 1))) = len rows + 1).
  { unfold len. rewrite repeat_length. lia. }
  pose proof (fill_demands_outcome (len rows + 1) (len rows) rows _ Hlen0)
    as Hout.
  destruct (find (fun row => negb (valid_row (len rows + 1) row)) rows)
    as [bad |].
  - rewrite Hout. reflexivity.
  - destruct Hout as (filled & Hfill). rewrite Hfill. simpl.
    destruct (create_distance_matrix_total randint (len rows + 1))
      as (matrix & Hm).
    rewrite Hm. simpl. eexists. split; [reflexivity |]. simpl.
    assert (Hzero : forall i, 0 <= i < len rows + 1 ->
              nth_error (repeat 0 (Z.to_nat (len rows + 1))) (Z.to_nat i)
              = Some (last_demand [] i)).
    { intros i Hi. rewrite last_demand_nil.
      apply nth_error_repeat_inside. lia. }
    destruct (fill_demands_values _ _ rows [] _ _ Hlen0 Hzero Hfill)
      as (Hl & Hv).
    repeat split; auto.
Qed.

End HandlerFacts.

Section HandlerEvents.

Variable randint : nat -> Z.
Variable ortools : RoutingProblem -> result Solved.

(** [solve_vrp] is entered exactly with the dictionary [prepare_data]
    yields, and not at all when [prepare_data] raises. *)
Lemma solve_called_iff (fuel : nat) (request_data : Request) (data : Data) :
  In (CallSolve data)
     (snd (handle_vrp_request randint ortools fuel request_data))
  <-> prepare_data randint request_data = Ok data.
Proof.
  unfold handle_vrp_request.
  destruct (prepare_data randint request_data) as [d | e]; simpl.
  - destruct (solve_vrp ortools d) as [[[routing manager] solution] | e];
      simpl.
    + destruct (get_solution_details fuel d manager routing solution); simpl;
        split; intros H.
      * destruct H as [H | []]. injection H as ->. reflexivity.
      * injection H as ->. auto.
      * destruct H as [H | []]. injection H as ->. reflexivity.
      * injection H as ->. auto.
    + split; intros H.
      * destruct H as [H | [H | []]]; [| discriminate].
        injection H as ->. reflexivity.
      * injection H as ->. auto.
  - split; intros H.
    + destruct H as [H | []]. discriminate.
    + discriminate.
Qed.

Lemma first_invalid_row (locations : Z) (rows : list Row) (row : Row) :
  In row rows -> valid_row locations row = false ->
  exists bad,
    find (fun r => negb (valid_row locations r)) rows = Some bad
    /\ In bad rows /\ valid_row locations bad = false.
Proof.
  intros Hin Hbad.
  destruct (find (fun r => negb (valid_row locations r)) rows) as [bad |] eqn:E.
  - apply find_some in E. destruct E as [H1 H2].
    exists bad. repeat split; auto. apply negb_true_iff. assumption.
  - apply (find_none _ _ E) in Hin. rewrite Hbad in Hin. discriminate.
Qed.

Lemma all_rows_valid (locations : Z) (rows : list Row) :
  forallb (valid_row locations) rows = true ->
  find (fun r => negb (valid_row locations r)) rows = None.
Proof.
  intros H. rewrite forallb_forall in H.
  destruct (find (fun r => negb (valid_row locations r)) rows) as [bad |] eqn:E;
    [| reflexivity].
  apply find_some in E. destruct E as [H1 H2].
  rewrite (H bad H1) in H2. discriminate.
Qed.

End HandlerEvents.

Lemma standin_randint_range (k : nat) : 500 <= standin_randint k <= 50000.
Proof.
  unfold standin_randint.
  pose proof (Z.mod_pos_bound (Z.of_nat k) 49501 ltac:(lia)). lia.
Qed.

(** ** The claims about validation, the demand vector and the matrix *)

(** C4: a request with a [customer_data] entry whose [LocationID] lies
    outside [1, N-1] is answered with HTTP status 500, the body carrying the
    [ValueError] message of the first such entry and [solution_status]
    ['ERROR'], for every fuel, and [solve_vrp] is not entered. *)
Theorem invalid_location_fails_fast
        (randint : nat -> Z) (ortools : RoutingProblem -> result Solved)
        (fuel : nat) (request_data : Request) (row : Row) :
  In row (customer_rows request_data) ->
  ~ (1 <= LocationID row <= len (customer_rows request_data)) ->
  exists bad,
    In bad (customer_rows request_data)
    /\ ~ (1 <= LocationID bad <= len (customer_rows request_data))
    /\ handle_vrp_request randint ortools fuel request_data
       = (Some ({| solution_status := "ERROR";
                   error := Some (invalid_location_message
                                    (LocationID bad)
                                    (len (customer_rows request_data)));
                   objective_value := None;
                   routes := None |}, 500),
          [Printed (error_line
                      (ValueError (invalid_location_message
                                     (LocationID bad)
                                     (len (customer_rows request_data)))))])
    /\ forall data,
         ~ In (CallSolve data)
              (snd (handle_vrp_request randint ortools fuel request_data)).
Proof.
  intros Hin Hout.
  assert (Hbad : valid_row (len (customer_rows request_data) + 1) row = false).
  { apply not_true_iff_false. rewrite valid_row_spec. lia. }
  destruct (first_invalid_row _ _ _ Hin Hbad) as (bad & Hfind & Hbin & Hbv).
  pose proof (prepare_data_outcome randint request_data) as Hprep.
  cbv zeta in Hprep. rewrite Hfind in Hprep.
  exists bad. split; [assumption |]. split.
  { apply not_true_iff_false in Hbv. rewrite valid_row_spec in Hbv. lia. }
  split.
  - unfold handle_vrp_request. rewrite Hprep. reflexivity.
  - intros data Hcall. apply solve_called_iff in Hcall.
    rewrite Hprep in Hcall. discriminate.
Qed.

(** C10: the demand vector of the dictionary with which [solve_vrp] is
    entered has one entry per location, and entry [i] is the [Demand] of the
    last [customer_data] row whose [LocationID] is [i], or 0 when no row
    names [i]; no sign check is made on the way. *)
Theorem demand_vector_is_last_write
        (randint : nat -> Z) (ortools : RoutingProblem -> result Solved)
        (fuel : nat) (request_data : Request) (data : Data) :
  In (CallSolve data)
     (snd (handle_vrp_request randint ortools fuel request_data)) ->
  len (demands data) = len (customer_rows request_data) + 1
  /\ forall i, 0 <= i < len (customer_rows request_data) + 1 ->
       getitem (demands data) i
       = Ok (last_demand (customer_rows request_data) i).
Proof.
  intros Hcall. apply solve_called_iff in Hcall.
  pose proof (prepare_data_outcome randint request_data) as Hprep.
  cbv zeta in Hprep.
  destruct (find _ (customer_rows request_data)) as [bad |].
  - rewrite Hprep in Hcall. discriminate.
  - destruct Hprep as (d & Hd & _ & _ & _ & _ & _ & Hlen & Hval).
    rewrite Hd in Hcall. injection Hcall as <-.
    split; [assumption |].
    intros i Hi. apply getitem_inside; [lia |]. apply Hval. assumption.
Qed.

(** C5, as the code has it: the handler checks neither the number of
    vehicles nor their capacities.  Every request whose rows pass the
    [LocationID] guard enters [solve_vrp], with [num_vehicles] the length of
    [vehicle_capacities] (0 included) and the capacities unchanged
    (negative ones included). *)
Theorem fleet_is_not_validated
        (randint : nat -> Z) (ortools : RoutingProblem -> result Solved)
        (fuel : nat) (request_data : Request) :
  forallb (valid_row (len (customer_rows request_data) + 1))
          (customer_rows request_data) = true ->
  exists data,
    In (CallSolve data)
       (snd (handle_vrp_request randint ortools fuel request_data))
    /\ num_vehicles data = len (fleet request_data)
    /\ vehicle_capacities data = fleet request_data.
Proof.
  intros Hvalid. apply all_rows_valid in Hvalid.
  pose proof (prepare_data_outcome randint request_data) as Hprep.
  cbv zeta in Hprep. rewrite Hvalid in Hprep.
  destruct Hprep as (d & Hd & _ & _ & Hv & Hc & _).
  exists d. split; [| split; assumption].
  apply solve_called_iff. assumption.
Qed.

(** ** The projection of an assignment into routes *)

Section Projection.

Variable data : Data.
Variable manager : RoutingIndexManager.
Variable routing : RoutingModel.
Variable solution : Assignment.

Lemma visited_cons (i : Z) (path : list Z) :
  visited data manager (i :: path)
  = if negb (IndexToNode manager i =? depot_index data)
    then IndexToNode manager i :: visited data manager path
    else visited data manager path.
Proof. unfold visited. simpl. reflexivity. Qed.

Lemma arc_total_cons (v i : Z) (path : list Z) :
  arc_total routing solution v (i :: path)
  = GetArcCostForVehicle routing i (NextValue solution i) v
    + arc_total routing solution v path.
Proof. reflexivity. Qed.

(** With fuel for every index of the route and one step more, the loop
    ends on the end index with the customers and the arc costs of the
    route. *)
Lemma walk_route_chain (v : Z) :
  forall (path : list Z) (fuel : nat) (i : Z) (nodes : list Z) (dist e : Z),
    chain (IsEnd routing) (NextValue solution) i path e ->
    (List.length path < fuel)%nat ->
    walk_route fuel data manager routing solution v i nodes dist
    = Some (nodes ++ visited data manager path,
            dist + arc_total routing solution v path).
Proof.
  induction path as [| x rest IH]; intros fuel i nodes dist e Hchain Hfuel;
    (destruct fuel as [| fuel]; [simpl in Hfuel; lia |]); simpl in Hchain.
  - destruct Hchain as [_ Hend]. simpl. rewrite Hend.
    rewrite app_nil_r. unfold arc_total. simpl. rewrite Z.add_0_r.
    reflexivity.
  - destruct Hchain as (-> & Hnot & Hrest). simpl walk_route. rewrite Hnot.
    rewrite (IH fuel _ _ _ e Hrest) by (simpl in Hfuel; lia).
    rewrite visited_cons, arc_total_cons.
    destruct (negb (IndexToNode manager i =? depot_index data)).
    + rewrite <- app_assoc. simpl. f_equal. f_equal. lia.
    + f_equal. f_equal. lia.
Qed.

(** A tour that leaves the depot and calls at customers only is listed as
    its customers. *)
Lemma visited_tour (start : Z) (mids : list Z) :
  IndexToNode manager start = depot_index data ->
  Forall (fun i => IndexToNode manager i <> depot_index data) mids ->
  visited data manager (start :: mids) = map (IndexToNode manager) mids.
Proof.
  intros Hstart Hmids. rewrite visited_cons, Hstart, Z.eqb_refl. simpl.
  unfold visited. induction Hmids as [| i rest Hi _ IH]; simpl;
    [reflexivity |].
  destruct (Z.eqb_spec (IndexToNode manager i) (depot_index data));
    [contradiction |].
  simpl. rewrite IH. reflexivity.
Qed.

Lemma collect_routes_tours (fuel : nat) :
  forall (vs : list Z) (tours : list (list Z)) (acc : list RouteJson),
    Forall2 (leaves_depot data manager routing solution) vs tours ->
    Forall (fun t => (S (List.length t) < fuel)%nat) tours ->
    collect_routes fuel data manager routing solution vs acc
    = Some (acc ++ map (fun vt => route_json manager routing solution
                                             (fst vt) (snd vt))
                       (combine vs tours)).
Proof.
  intros vs tours acc H. revert acc.
  induction H as [| v mids vs tours (Hchain & Hstart & Hmids) _ IH];
    intros acc Hfuel; simpl.
  - rewrite app_nil_r. reflexivity.
  - inversion Hfuel as [| ? ? Hv Hrest]; subst.
    rewrite (walk_route_chain v _ fuel _ [] 0 _ Hchain) by (simpl; lia).
    simpl app. rewrite (visited_tour _ _ Hstart Hmids).
    rewrite IH by assumption. rewrite <- app_assoc. reflexivity.
Qed.

End Projection.

Lemma Forall2_refine {A B : Type} (R S : A -> B -> Prop) (Q : B -> Prop)
      (l1 : list A) (l2 : list B) :
  (forall x y, R x y -> Q y -> S x y) ->
  Forall2 R l1 l2 -> Forall Q l2 -> Forall2 S l1 l2.
Proof.
  intros HRS H. induction H as [| x y l1 l2 Hxy _ IH]; intros HQ.
  - constructor.
  - inversion HQ; subst. constructor; auto.
Qed.

Lemma Forall2_combine {A B : Type} (R : A -> B -> Prop)
      (l1 : list A) (l2 : list B) :
  Forall2 R l1 l2 -> Forall (fun xy => R (fst xy) (snd xy)) (combine l1 l2).
Proof.
  intros H. induction H; simpl; constructor; auto.
Qed.

Lemma length_concat_member {A : Type} (t : list A) (ls : list (list A)) :
  In t ls -> (List.length t <= List.length (List.concat ls))%nat.
Proof.
  induction ls as [| h rest IH]; simpl; intros H; [contradiction |].
  rewrite length_app. destruct H as [-> | H]; [lia |].
  apply IH in H. lia.
Qed.

Lemma range_length (n : Z) : List.length (range n) = Z.to_nat n.
Proof. unfold range. rewrite length_map, length_seq. reflexivity. Qed.

Lemma customers_spec (num_nodes depot n : Z) :
  In n (customers num_nodes depot) <-> 0 <= n < num_nodes /\ n <> depot.
Proof.
  unfold customers, range. rewrite filter_In, in_map_iff, negb_true_iff, Z.eqb_neq.
  split.
  - intros [(k & <- & Hk) Hne]. apply in_seq in Hk. split; [lia | assumption].
  - intros [Hr Hne]. split; [| assumption].
    exists (Z.to_nat n). split; [lia |]. apply in_seq. lia.
Qed.

Section ValidAssignmentFacts.

Variable data : Data.
Variable manager : RoutingIndexManager.
Variable routing : RoutingModel.
Variable solution : Assignment.
Variable tours : list (list Z).

Hypothesis tours_cover :
  Permutation (map (IndexToNode manager) (List.concat tours))
              (customers (num_locations data) (depot_index data)).

Lemma tour_member_is_customer (t : list Z) (i : Z) :
  In t tours -> In i t ->
  In (IndexToNode manager i)
     (customers (num_locations data) (depot_index data)).
Proof.
  intros Ht Hi. eapply Permutation_in; [exact tours_cover |].
  apply in_map. apply in_concat. exists t. split; assumption.
Qed.

Lemma tours_avoid_depot :
  Forall (Forall (fun i => IndexToNode manager i <> depot_index data)) tours.
Proof.
  rewrite Forall_forall. intros t Ht. rewrite Forall_forall. intros i Hi.
  pose proof (tour_member_is_customer t i Ht Hi) as H.
  apply customers_spec in H. tauto.
Qed.

Lemma tours_short :
  Forall (fun t => (List.length t <= Z.to_nat (num_locations data))%nat) tours.
Proof.
  rewrite Forall_forall. intros t Ht.
  pose proof (length_concat_member t tours Ht) as H1.
  pose proof (Permutation_length tours_cover) as H2.
  rewrite length_map in H2.
  pose proof (filter_length_le
                (fun n => negb (n =? depot_index data))
                (range (num_locations data))) as H3.
  rewrite range_length in H3. unfold customers in H2. lia.
Qed.

Hypothesis tours_respect :
  Forall2 (route_respects (routing_problem data) routing manager solution)
          (range (num_vehicles data)) tours.

(** The response built from an assignment that keeps the library's
    promises: one entry per vehicle, in fleet order. *)
Lemma projection_of_tours (fuel : nat) :
  (Z.to_nat (num_locations data) + 2 <= fuel)%nat ->
  get_solution_details fuel data manager routing (Some solution)
  = Some (optimal_body solution
            (routes_of_tours manager routing solution
                             (range (num_vehicles data)) tours)).
Proof.
  intros Hfuel. unfold get_solution_details.
  rewrite (collect_routes_tours data manager routing solution fuel
             (range (num_vehicles data)) tours []).
  - reflexivity.
  - eapply Forall2_refine; [| exact tours_respect | exact tours_avoid_depot].
    intros v mids (Hchain & Hstart & _) Hmids.
    split; [exact Hchain |]. split; [exact Hstart | exact Hmids].
  - eapply Forall_impl; [| exact tours_short]. simpl. intros t Ht. lia.
Qed.

End ValidAssignmentFacts.

(** ** Arc costs and loads along a route *)

Lemma path_cost_two (matrix : list (list Z)) (a b : Z) (rest : list Z) :
  path_cost matrix (a :: b :: rest)
  = (r <- getitem matrix a ;;
     c <- getitem r b ;;
     t <- path_cost matrix (b :: rest) ;;
     Ok (c + t)).
Proof. reflexivity. Qed.

Section RouteFacts.

Variable data : Data.
Variable manager : RoutingIndexManager.
Variable routing : RoutingModel.
Variable solution : Assignment.

Let node := IndexToNode manager.
Let problem := routing_problem data.

(** The nodes of a route and of its end start with the node of the index
    the route starts from. *)
Lemma chain_nodes_head (path : list Z) (i e : Z) :
  chain (IsEnd routing) (NextValue solution) i path e ->
  exists tail, map node path ++ [node e] = node i :: tail.
Proof.
  destruct path as [| x rest]; simpl.
  - intros [-> _]. exists []. reflexivity.
  - intros (-> & _ & _). eexists. reflexivity.
Qed.

Lemma path_cost_chain (v : Z) :
  forall (path : list Z) (i e : Z),
    chain (IsEnd routing) (NextValue solution) i path e ->
    Forall (arc_charged problem routing manager solution v) path ->
    path_cost (distance_matrix data) (map node path ++ [node e])
    = Ok (arc_total routing solution v path).
Proof.
  induction path as [| x rest IH]; intros i e Hchain Harcs.
  - reflexivity.
  - simpl in Hchain. destruct Hchain as (-> & _ & Hrest).
    inversion Harcs as [| ? ? Harc Hothers]; subst.
    destruct (chain_nodes_head rest _ e Hrest) as (tail & Htail).
    specialize (IH _ e Hrest Hothers).
    simpl map. simpl app. rewrite Htail in *.
    rewrite path_cost_two, IH, arc_total_cons.
    unfold arc_charged in Harc. simpl in Harc.
    unfold distance_callback in Harc. fold node in Harc.
    destruct (getitem (distance_matrix data) (node i)) as [r | ex];
      simpl in *; [| discriminate].
    rewrite Harc. reflexivity.
Qed.

(** With no slack, the cumulative variable at the end of a stretch is its
    value at the beginning plus the demands picked up on the way. *)
Lemma load_along_chain (cap : Z) :
  forall (path : list Z) (i e : Z),
    chain (IsEnd routing) (NextValue solution) i path e ->
    Forall (load_kept problem manager solution cap) path ->
    exists qs,
      Forall2 (fun j q => demand_callback data manager j = Ok q) path qs
      /\ CumulValue solution e = CumulValue solution i + sum_Z qs
      /\ (path <> [] -> 0 <= CumulValue solution e <= cap).
Proof.
  induction path as [| x rest IH]; intros i e Hchain Hloads.
  - destruct Hchain as [-> _]. exists [].
    split; [constructor |]. split; [simpl; lia |].
    intros H. contradiction.
  - simpl in Hchain. destruct Hchain as (-> & _ & Hrest).
    inversion Hloads as [| ? ? (q & Hq & Hstep & Hi & Hnext) Hothers]; subst.
    destruct (IH _ e Hrest Hothers) as (qs & Hqs & Hsum & Hbound).
    exists (q :: qs). simpl in Hstep. split; [| split].
    + constructor; assumption.
    + simpl. lia.
    + intros _. destruct rest as [| y rest'].
      * destruct Hrest as [<- _]. assumption.
      * apply Hbound. discriminate.
Qed.

Lemma route_demand_of_callbacks (mids : list Z) (qs : list Z) :
  Forall2 (fun j q => demand_callback data manager j = Ok q) mids qs ->
  route_demand (demands data) (map node mids) = Ok (sum_Z qs).
Proof.
  intros H. induction H as [| j q mids qs Hq _ IH]; simpl; [reflexivity |].
  unfold demand_callback in Hq. fold node in Hq. rewrite Hq. simpl.
  rewrite IH. reflexivity.
Qed.

(** The load a route reports, and the demand of its customers, stay within
    the capacity of its vehicle. *)
Lemma route_within_capacity (v : Z) (mids : list Z) :
  route_respects problem routing manager solution v mids ->
  exists cap load,
    getitem (vehicle_capacities data) v = Ok cap
    /\ CumulValue solution (routing_End routing v) <= cap
    /\ route_demand (demands data) (map node mids) = Ok load
    /\ load <= CumulValue solution (routing_End routing v).
Proof.
  intros (Hchain & _ & _ & _ & cap & Hcap & Hzero & Hloads).
  destruct (load_along_chain cap _ _ _ Hchain Hloads)
    as (qs & Hqs & Hsum & Hbound).
  specialize (Hzero eq_refl). specialize (Hbound ltac:(discriminate)).
  inversion Hqs as [| j q0 ? qs' Hq0 Hqs']; subst.
  inversion Hloads as [| ? ? (q & Hq & Hstep & Hi & Hnext) _]; subst.
  fold problem in Hq. simpl in Hq, Hstep. rewrite Hq0 in Hq.
  injection Hq as <-.
  exists cap, (sum_Z qs'). split; [exact Hcap |]. split; [lia |].
  split; [apply route_demand_of_callbacks; assumption |].
  simpl in Hsum. lia.
Qed.

(** The distance a route reports is the cost of the drive from the depot
    through its customers and back. *)
Lemma route_distance_is_path_cost (v : Z) (mids : list Z) :
  route_respects problem routing manager solution v mids ->
  path_cost (distance_matrix data)
            (depot_index data :: map node mids ++ [depot_index data])
  = Ok (arc_total routing solution v (routing_Start routing v :: mids)).
Proof.
  intros (Hchain & Hstart & Hend & Harcs & _).
  pose proof (path_cost_chain v _ _ _ Hchain Harcs) as H.
  simpl map in H. fold node in Hstart, Hend.
  simpl in Hstart, Hend. rewrite Hstart, Hend in H. exact H.
Qed.

End RouteFacts.

(** ** Success responses *)

Lemma routes_of_tours_Forall (manager : RoutingIndexManager)
      (routing : RoutingModel) (solution : Assignment)
      (R : Z -> list Z -> Prop) (Q : RouteJson -> Prop)
      (vs : list Z) (tours : list (list Z)) :
  (forall v mids, R v mids -> Q (route_json manager routing solution v mids)) ->
  Forall2 R vs tours ->
  Forall Q (routes_of_tours manager routing solution vs tours).
Proof.
  intros HRQ H. unfold routes_of_tours.
  induction H; simpl; constructor; auto.
Qed.

Lemma routes_of_tours_vehicle_ids (manager : RoutingIndexManager)
      (routing : RoutingModel) (solution : Assignment)
      (R : Z -> list Z -> Prop) (vs : list Z) (tours : list (list Z)) :
  Forall2 R vs tours ->
  map vehicle_id (routes_of_tours manager routing solution vs tours)
  = map (fun v => v + 1) vs.
Proof.
  intros H. unfold routes_of_tours.
  induction H; simpl; [reflexivity |]. f_equal. assumption.
Qed.

Lemma routes_of_tours_nodes (manager : RoutingIndexManager)
      (routing : RoutingModel) (solution : Assignment)
      (R : Z -> list Z -> Prop) (vs : list Z) (tours : list (list Z)) :
  Forall2 R vs tours ->
  all_route_nodes (routes_of_tours manager routing solution vs tours)
  = map (IndexToNode manager) (List.concat tours).
Proof.
  intros H. unfold routes_of_tours, all_route_nodes.
  induction H; simpl; [reflexivity |].
  rewrite map_app. f_equal. assumption.
Qed.

Section SuccessResponse.

Variable randint : nat -> Z.
Variable ortools : RoutingProblem -> result Solved.

Lemma handle_returns (fuel : nat) (request_data : Request) (data : Data)
      (routing : RoutingModel) (manager : RoutingIndexManager)
      (solution : option Assignment) (body : ResponseBody) :
  prepare_data randint request_data = Ok data ->
  solve_vrp ortools data = Ok (routing, manager, solution) ->
  get_solution_details fuel data manager routing solution = Some body ->
  handle_vrp_request randint ortools fuel request_data
  = (Some (body, 200), [CallSolve data]).
Proof.
  intros Hprep Hsolve Hbody. unfold handle_vrp_request.
  rewrite Hprep, Hsolve, Hbody. reflexivity.
Qed.

(** The response to a request for which the library returns a valid
    assignment. *)
Lemma success_response (fuel : nat) (request_data : Request) (data : Data)
      (routing : RoutingModel) (manager : RoutingIndexManager)
      (solution : Assignment) (tours : list (list Z)) :
  prepare_data randint request_data = Ok data ->
  solve_vrp ortools data = Ok (routing, manager, Some solution) ->
  Forall2 (route_respects (routing_problem data) routing manager solution)
          (range (num_vehicles data)) tours ->
  Permutation (map (IndexToNode manager) (List.concat tours))
              (customers (num_locations data) (depot_index data)) ->
  (Z.to_nat (num_locations data) + 2 <= fuel)%nat ->
  handle_vrp_request randint ortools fuel request_data
  = (Some (optimal_body solution
             (routes_of_tours manager routing solution
                              (range (num_vehicles data)) tours), 200),
     [CallSolve data]).
Proof.
  intros Hprep Hsolve Hrespect Hcover Hfuel.
  eapply handle_returns; try eassumption.
  apply projection_of_tours; assumption.
Qed.

End SuccessResponse.

(** ** The claims about success responses *)

(** C8: in a success response the routes are the tours of the solver's
    assignment, one per vehicle in fleet order.  The route of vehicle [v]
    lists the nodes of the indices [mids] its tour visits between start and
    end, and its [total_distance] is the sum of the arc costs of the arcs
    leaving the start and each of [mids], over 1000; that sum is the cost,
    read off the distance matrix, of the drive from the depot through the
    route's customers and back to the depot.  [objective_value] is the
    solver's objective value over 1000. *)
Theorem distances_are_scaled_path_costs
        (randint : nat -> Z) (ortools : RoutingProblem -> result Solved)
        (fuel : nat) (request_data : Request) (data : Data)
        (routing : RoutingModel) (manager : RoutingIndexManager)
        (solution : Assignment) :
  prepare_data randint request_data = Ok data ->
  solve_vrp ortools data = Ok (routing, manager, Some solution) ->
  valid_assignment (routing_problem data) routing manager solution ->
  (Z.to_nat (num_locations data) + 2 <= fuel)%nat ->
  exists tours,
    Forall2 (route_respects (routing_problem data) routing manager solution)
            (range (num_vehicles data)) tours
    /\ handle_vrp_request randint ortools fuel request_data
       = (Some ({| solution_status := "OPTIMAL";
                   error := None;
                   objective_value := Some (ObjectiveValue solution # 1000);
                   routes :=
                     Some (map (fun vt =>
                                  {| vehicle_id := fst vt + 1;
                                     route_nodes :=
                                       map (IndexToNode manager) (snd vt);
                                     total_distance :=
                                       arc_total routing solution (fst vt)
                                         (routing_Start routing (fst vt)
                                            :: snd vt) # 1000;
                                     total_load :=
                                       CumulValue solution
                                         (routing_End routing (fst vt)) |})
                               (combine (range (num_vehicles data)) tours))
                |}, 200),
          [CallSolve data])
    /\ Forall2 (fun v mids =>
                  path_cost (distance_matrix data)
                            (depot_index data
                               :: map (IndexToNode manager) mids
                               ++ [depot_index data])
                  = Ok (arc_total routing solution v
                                  (routing_Start routing v :: mids)))
               (range (num_vehicles data)) tours.
Proof.
  intros Hprep Hsolve (tours & Hrespect & Hcover) Hfuel.
  exists tours. split; [exact Hrespect |]. split.
  - apply (success_response randint ortools fuel request_data data
             routing manager solution tours); assumption.
  - eapply Forall2_impl; [| exact Hrespect].
    intros v mids Hv. apply route_distance_is_path_cost. assumption.
Qed.

(** C2: in a success response the routes are listed in fleet order, and for
    each of them the reported [total_load] and the sum of the demands of its
    customers are at most the capacity of its vehicle, the entry of
    [vehicle_capacities] at [vehicle_id - 1]. *)
Theorem routes_respect_capacity
        (randint : nat -> Z) (ortools : RoutingProblem -> result Solved)
        (fuel : nat) (request_data : Request) (data : Data)
        (routing : RoutingModel) (manager : RoutingIndexManager)
        (solution : Assignment) :
  prepare_data randint request_data = Ok data ->
  solve_vrp ortools data = Ok (routing, manager, Some solution) ->
  valid_assignment (routing_problem data) routing manager solution ->
  (Z.to_nat (num_locations data) + 2 <= fuel)%nat ->
  exists rs,
    handle_vrp_request randint ortools fuel request_data
    = (Some (optimal_body solution rs, 200), [CallSolve data])
    /\ map vehicle_id rs = map (fun v => v + 1) (range (num_vehicles data))
    /\ Forall (fun rt =>
                 exists cap load,
                   getitem (vehicle_capacities data) (vehicle_id rt - 1)
                   = Ok cap
                   /\ total_load rt <= cap
                   /\ route_demand (demands data) (route_nodes rt) = Ok load
                   /\ load <= cap) rs.
Proof.
  intros Hprep Hsolve (tours & Hrespect & Hcover) Hfuel.
  exists (routes_of_tours manager routing solution
                          (range (num_vehicles data)) tours).
  split; [apply success_response; assumption |]. split.
  - eapply routes_of_tours_vehicle_ids. exact Hrespect.
  - eapply routes_of_tours_Forall; [| exact Hrespect].
    intros v mids Hv. simpl.
    destruct (route_within_capacity data manager routing solution v mids Hv)
      as (cap & load & Hcap & Hend & Hload & Hle).
    exists cap, load. replace (v + 1 - 1) with v by lia.
    repeat split; auto; lia.
Qed.

(** ** Coverage of the locations by the routes *)

Lemma range_NoDup (n : Z) : NoDup (range n).
Proof.
  unfold range. generalize (seq_NoDup (Z.to_nat n) 0).
  generalize (seq 0 (Z.to_nat n)). intros l H.
  induction H as [| x l Hx _ IH]; simpl; constructor; [| assumption].
  rewrite in_map_iff. intros (y & Hy & Hin).
  apply Nat2Z.inj in Hy. subst y. contradiction.
Qed.

Lemma customers_NoDup (num_nodes depot : Z) : NoDup (customers num_nodes depot).
Proof. unfold customers. apply NoDup_filter. apply range_NoDup. Qed.

Lemma customers_count (num_nodes depot n : Z) :
  count_occ Z.eq_dec (customers num_nodes depot) n
  = if (0 <=? n) && (n <? num_nodes) && negb (n =? depot)
    then 1%nat else 0%nat.
Proof.
  destruct ((0 <=? n) && (n <? num_nodes) && negb (n =? depot)) eqn:E.
  - apply NoDup_count_occ'; [apply customers_NoDup |].
    apply customers_spec.
    rewrite !andb_true_iff, negb_true_iff in E. lia.
  - apply count_occ_not_In. rewrite customers_spec. intros [H1 H2].
    rewrite !andb_false_iff, negb_false_iff in E. lia.
Qed.

Section Coverage.

Variable randint : nat -> Z.
Variable ortools : RoutingProblem -> result Solved.

(** In a success response every location other than the depot is listed
    once over all routes, and nothing else is listed. *)
Lemma each_non_depot_node_once
      (fuel : nat) (request_data : Request) (data : Data)
      (routing : RoutingModel) (manager : RoutingIndexManager)
      (solution : Assignment) :
  prepare_data randint request_data = Ok data ->
  solve_vrp ortools data = Ok (routing, manager, Some solution) ->
  valid_assignment (routing_problem data) routing manager solution ->
  (Z.to_nat (num_locations data) + 2 <= fuel)%nat ->
  exists rs,
    handle_vrp_request randint ortools fuel request_data
    = (Some (optimal_body solution rs, 200), [CallSolve data])
    /\ forall n,
         count_occ Z.eq_dec (all_route_nodes rs) n
         = if (0 <=? n) && (n <? num_locations data)
              && negb (n =? depot_index data)
           then 1%nat else 0%nat.
Proof.
  intros Hprep Hsolve (tours & Hrespect & Hcover) Hfuel.
  exists (routes_of_tours manager routing solution
                          (range (num_vehicles data)) tours).
  split; [apply success_response; assumption |].
  intros n. rewrite (routes_of_tours_nodes _ _ _ _ _ _ Hrespect).
  simpl in Hcover.
  rewrite (Permutation_count_occ Z.eq_dec) in Hcover. rewrite Hcover.
  apply customers_count.
Qed.

End Coverage.

(** C1, at a depot index other than 0: when a request names one of the
    customer indices [1 .. N-1] as [depot_index], the success response lists
    that customer on no route, and lists location 0 instead. *)
Theorem customer_at_depot_index_is_dropped
        (randint : nat -> Z) (ortools : RoutingProblem -> result Solved)
        (fuel : nat) (request_data : Request) (data : Data)
        (routing : RoutingModel) (manager : RoutingIndexManager)
        (solution : Assignment) :
  prepare_data randint request_data = Ok data ->
  solve_vrp ortools data = Ok (routing, manager, Some solution) ->
  valid_assignment (routing_problem data) routing manager solution ->
  (Z.to_nat (num_locations data) + 2 <= fuel)%nat ->
  1 <= depot_index data <= num_locations data - 1 ->
  exists rs,
    handle_vrp_request randint ortools fuel request_data
    = (Some (optimal_body solution rs, 200), [CallSolve data])
    /\ count_occ Z.eq_dec (all_route_nodes rs) (depot_index data) = 0%nat
    /\ count_occ Z.eq_dec (all_route_nodes rs) 0 = 1%nat.
Proof.
  intros Hprep Hsolve Hvalid Hfuel Hdepot.
  destruct (each_non_depot_node_once randint ortools fuel request_data data
              routing manager solution Hprep Hsolve Hvalid Hfuel)
    as (rs & Hresp & Hcount).
  exists rs. split; [assumption |]. split.
  - rewrite Hcount. rewrite Z.eqb_refl. simpl. rewrite andb_false_r.
    reflexivity.
  - rewrite Hcount.
    destruct (Z.ltb_spec 0 (num_locations data)) as [_ | H]; [| lia].
    destruct (Z.eqb_spec 0 (depot_index data)) as [H | _]; [lia |].
    reflexivity.
Qed.

(** With the default depot 0, every customer index in [1, N-1] is listed
    exactly once over all routes of a success response, and location 0 is
    never listed. *)
Theorem every_customer_once_with_depot_zero
        (randint : nat -> Z) (ortools : RoutingProblem -> result Solved)
        (fuel : nat) (request_data : Request) (data : Data)
        (routing : RoutingModel) (manager : RoutingIndexManager)
        (solution : Assignment) :
  prepare_data randint request_data = Ok data ->
  solve_vrp ortools data = Ok (routing, manager, Some solution) ->
  valid_assignment (routing_problem data) routing manager solution ->
  (Z.to_nat (num_locations data) + 2 <= fuel)%nat ->
  depot_index data = 0 ->
  exists rs,
    handle_vrp_request randint ortools fuel request_data
    = (Some (optimal_body solution rs, 200), [CallSolve data])
    /\ (forall n, 1 <= n <= num_locations data - 1 ->
                  count_occ Z.eq_dec (all_route_nodes rs) n = 1%nat)
    /\ (forall n, ~ (1 <= n <= num_locations data - 1) ->
                  count_occ Z.eq_dec (all_route_nodes rs) n = 0%nat).
Proof.
  intros Hprep Hsolve Hvalid Hfuel Hdepot.
  destruct (each_non_depot_node_once randint ortools fuel request_data data
              routing manager solution Hprep Hsolve Hvalid Hfuel)
    as (rs & Hresp & Hcount).
  exists rs. split; [assumption |]. rewrite Hdepot in Hcount.
  split; intros n Hn; rewrite Hcount.
  - destruct (Z.leb_spec 0 n); [| lia].
    destruct (Z.ltb_spec n (num_locations data)); [| lia].
    destruct (Z.eqb_spec n 0); [lia | reflexivity].
  - destruct (Z.leb_spec 0 n); [| reflexivity].
    destruct (Z.ltb_spec n (num_locations data)); [| reflexivity].
    destruct (Z.eqb_spec n 0); [reflexivity | lia].
Qed.

(** ** The demand at the depot *)

Lemma last_demand_unnamed (rows : list Row) (i : Z) :
  Forall (fun row => LocationID row <> i) rows -> last_demand rows i = 0.
Proof.
  intros H. unfold last_demand.
  destruct (find (fun row => LocationID row =? i) (rev rows)) as [row |] eqn:E;
    [| reflexivity].
  apply find_some in E. destruct E as [Hin Heq].
  apply in_rev in Hin. rewrite Forall_forall in H.
  apply Z.eqb_eq in Heq. exfalso. exact (H row Hin Heq).
Qed.

(** C6, at a depot index other than 0: the guard compares [LocationID]
    with 0 and not with [depot_index], so a request whose [depot_index] is
    one of the customer indices is accepted, and the demand vector handed to
    the solver holds at the depot whatever [Demand] the request gave that
    index. *)
Theorem depot_demand_follows_customer_rows
        (randint : nat -> Z) (ortools : RoutingProblem -> result Solved)
        (fuel : nat) (request_data : Request) :
  forallb (valid_row (len (customer_rows request_data) + 1))
          (customer_rows request_data) = true ->
  1 <= get (req_depot_index request_data) 0
    <= len (customer_rows request_data) ->
  exists data,
    In (CallSolve data)
       (snd (handle_vrp_request randint ortools fuel request_data))
    /\ depot_index data = get (req_depot_index request_data) 0
    /\ getitem (demands data) (depot_index data)
       = Ok (last_demand (customer_rows request_data) (depot_index data)).
Proof.
  intros Hvalid Hdepot. apply all_rows_valid in Hvalid.
  pose proof (prepare_data_outcome randint request_data) as Hprep.
  cbv zeta in Hprep. rewrite Hvalid in Hprep.
  destruct Hprep as (d & Hd & _ & _ & _ & _ & Hdep & _ & Hval).
  exists d. split; [apply solve_called_iff; assumption |].
  split; [assumption |].
  apply getitem_inside; [lia |]. apply Hval. lia.
Qed.

(** With the default depot 0, the demand at the depot is 0 in every
    dictionary handed to the solver. *)
Theorem depot_zero_has_no_demand
        (randint : nat -> Z) (ortools : RoutingProblem -> result Solved)
        (fuel : nat) (request_data : Request) (data : Data) :
  In (CallSolve data)
     (snd (handle_vrp_request randint ortools fuel request_data)) ->
  getitem (demands data) 0 = Ok 0.
Proof.
  intros Hcall. apply solve_called_iff in Hcall.
  pose proof (prepare_data_outcome randint request_data) as Hprep.
  cbv zeta in Hprep.
  destruct (find _ (customer_rows request_data)) as [bad |] eqn:Hfind.
  - rewrite Hprep in Hcall. discriminate.
  - destruct Hprep as (d & Hd & _ & _ & _ & _ & _ & Hlen & Hval).
    rewrite Hd in Hcall. injection Hcall as <-.
    apply getitem_inside; [lia |].
    rewrite (Hval 0) by (pose proof (len_nonneg (customer_rows request_data)); lia).
    f_equal. apply last_demand_unnamed.
    rewrite Forall_forall. intros row Hin Hzero.
    apply (find_none _ _ Hfind) in Hin.
    apply negb_false_iff, valid_row_spec in Hin. lia.
Qed.

(** ** The contract of the distance matrix *)

(** C9: for every location count [n] (the depot and the customers, so
    [n >= 1]) the matrix has [n] rows of [n] non-negative entries and a zero
    diagonal. *)
Theorem create_distance_matrix_contract (randint : nat -> Z) (n : Z) :
  (forall k, 500 <= randint k <= 50000) ->
  1 <= n ->
  exists matrix,
    create_distance_matrix randint n = Ok matrix
    /\ cost_matrix n matrix.
Proof.
  intros Hdraw Hn.
  destruct (create_distance_matrix_rows randint (fun x => 0 <= x)
              (Z.le_refl 0) (fun k => Z.le_trans 0 500 _ ltac:(lia) (proj1 (Hdraw k)))
              (Z.to_nat n)) as (matrix & Hm & Hrows); [lia |].
  rewrite Z2Nat.id in Hm by lia.
  exists matrix. split; [assumption |].
  apply rows_so_far_cost_matrix in Hrows.
  rewrite Z2Nat.id in Hrows by lia. assumption.
Qed.

(** The handler asks for the matrix of [len(customer_data) + 1] locations,
    which is at least 1: the location counts are the counts from 1 on. *)
Lemma location_count_is_positive (randint : nat -> Z)
      (request_data : Request) (data : Data) :
  prepare_data randint request_data = Ok data ->
  1 <= num_locations data
  /\ create_distance_matrix randint (num_locations data)
     = Ok (distance_matrix data).
Proof.
  intros Hd.
  pose proof (prepare_data_outcome randint request_data) as Hprep.
  cbv zeta in Hprep.
  destruct (find _ (customer_rows request_data)) as [bad |].
  - rewrite Hprep in Hd. discriminate.
  - destruct Hprep as (d & Hd' & Hm & Hn & _).
    rewrite Hd' in Hd. injection Hd as <-. rewrite Hn. split; [| exact Hm].
    pose proof (len_nonneg (customer_rows request_data)). lia.
Qed.

(** ** Demand against the capacity of the fleet *)

Lemma sum_Z_app (l1 l2 : list Z) : sum_Z (l1 ++ l2) = sum_Z l1 + sum_Z l2.
Proof.
  unfold sum_Z. induction l1 as [| x l1 IH]; simpl; [reflexivity |].
  rewrite IH. lia.
Qed.

Lemma sum_Z_permutation (l1 l2 : list Z) :
  Permutation l1 l2 -> sum_Z l1 = sum_Z l2.
Proof.
  unfold sum_Z. intros H. induction H; simpl; lia.
Qed.

Lemma sum_Z_cons (x : Z) (l : list Z) : sum_Z (x :: l) = x + sum_Z l.
Proof. reflexivity. Qed.

Lemma route_demand_Ok_iff (ds : list Z) (nodes : list Z) (t : Z) :
  route_demand ds nodes = Ok t
  <-> Forall (fun n => exists q, getitem ds n = Ok q) nodes
      /\ t = sum_Z (map (fun n => or_zero (getitem ds n)) nodes).
Proof.
  revert t. induction nodes as [| n rest IH]; intros t.
  - simpl. split.
    + intros E. injection E as <-. split; [constructor | reflexivity].
    + intros [_ ->]. reflexivity.
  - cbn [route_demand map]. rewrite sum_Z_cons.
    destruct (getitem ds n) as [q | e] eqn:Hq; cbn [bind or_zero].
    + destruct (route_demand ds rest) as [s | e] eqn:Hrest; cbn [bind].
      * destruct (proj1 (IH s) eq_refl) as [Hall Hs].
        split.
        -- intros E. injection E as <-. split.
           ++ constructor; [exists q; assumption | assumption].
           ++ rewrite Hs. reflexivity.
        -- intros [_ ->]. rewrite Hs. reflexivity.
      * split; [discriminate |]. intros [Hall _].
        inversion Hall as [| ? ? _ Hrest']; subst.
        assert (Hno : Raise e
                      = Ok (sum_Z (map (fun n => or_zero (getitem ds n)) rest))).
        { apply IH. split; [assumption | reflexivity]. }
        discriminate.
    + split; [discriminate |]. intros [Hall _].
      inversion Hall as [| ? ? (q & Hq') _]; subst.
      rewrite Hq in Hq'. discriminate.
Qed.

Lemma loads_within_fleet (L : list Z -> Z) :
  forall (caps pre : list Z) (tours : list (list Z)),
    Forall2 (fun v mids =>
               exists cap, getitem (pre ++ caps) v = Ok cap /\ L mids <= cap)
            (map Z.of_nat (seq (List.length pre) (List.length caps))) tours ->
    sum_Z (map L tours) <= sum_Z caps.
Proof.
  induction caps as [| c cs IH]; intros pre tours H; simpl in H.
  - inversion H; subst. simpl. lia.
  - inversion H as [| v mids vs ts (cap & Hcap & Hle) Hrest]; subst.
    apply getitem_Ok_inv in Hcap; [| lia]. destruct Hcap as [_ Hcap].
    rewrite Nat2Z.id, nth_error_app2, Nat.sub_diag in Hcap by lia.
    simpl in Hcap. injection Hcap as <-.
    specialize (IH (pre ++ [c]) ts).
    rewrite <- app_assoc, length_app, Nat.add_1_r in IH. simpl in IH.
    specialize (IH Hrest). unfold sum_Z in *. simpl. lia.
Qed.

Section FleetCapacity.

Variable data : Data.
Variable manager : RoutingIndexManager.
Variable routing : RoutingModel.
Variable solution : Assignment.

Let demand_at (n : Z) : Z := or_zero (getitem (demands data) n).
Let tour_load (mids : list Z) : Z :=
  sum_Z (map demand_at (map (IndexToNode manager) mids)).

Lemma tour_loads_sum (tours : list (list Z)) :
  sum_Z (map tour_load tours)
  = sum_Z (map demand_at (map (IndexToNode manager) (List.concat tours))).
Proof.
  induction tours as [| t rest IH]; simpl; [reflexivity |].
  rewrite !map_app, sum_Z_app, <- IH. reflexivity.
Qed.

(** An assignment that keeps the library's promises exists only when the
    customers' demand fits into the fleet. *)
Lemma feasible_totals (tours : list (list Z)) (t : Z) :
  Forall2 (route_respects (routing_problem data) routing manager solution)
          (range (num_vehicles data)) tours ->
  Permutation (map (IndexToNode manager) (List.concat tours))
              (customers (num_locations data) (depot_index data)) ->
  num_vehicles data = len (vehicle_capacities data) ->
  total_customer_demand data = Ok t ->
  t <= total_capacity data.
Proof.
  intros Hrespect Hcover Hfleet Htotal.
  apply route_demand_Ok_iff in Htotal. destruct Htotal as [_ ->].
  fold demand_at.
  rewrite <- (sum_Z_permutation _ _ (Permutation_map demand_at Hcover)).
  rewrite <- tour_loads_sum. unfold total_capacity.
  apply (loads_within_fleet tour_load (vehicle_capacities data) []).
  simpl. rewrite Hfleet in Hrespect. unfold range, len in Hrespect.
  rewrite Nat2Z.id in Hrespect.
  eapply Forall2_impl; [| exact Hrespect].
  intros v mids Hv.
  destruct (route_within_capacity data manager routing solution v mids Hv)
    as (cap & load & Hcap & Hend & Hload & Hle).
  exists cap. split; [assumption |].
  apply route_demand_Ok_iff in Hload. destruct Hload as [_ Hload].
  unfold tour_load, demand_at. rewrite <- Hload. lia.
Qed.

End FleetCapacity.

Section NoSolution.

Variable randint : nat -> Z.
Variable ortools : RoutingProblem -> result Solved.

Lemma prepare_data_fleet (request_data : Request) (data : Data) :
  prepare_data randint request_data = Ok data ->
  num_vehicles data = len (vehicle_capacities data).
Proof.
  intros Hd.
  pose proof (prepare_data_outcome randint request_data) as Hprep.
  cbv zeta in Hprep.
  destruct (find _ (customer_rows request_data)) as [bad |].
  - rewrite Hprep in Hd. discriminate.
  - destruct Hprep as (d & Hd' & _ & _ & Hv & Hc & _).
    rewrite Hd' in Hd. injection Hd as <-. rewrite Hv, Hc. reflexivity.
Qed.

End NoSolution.



(** ** Examples *)

Ltac compare_computed :=
  vm_compute; repeat split; try reflexivity; try (intros H; discriminate H).

Ltac each_index tac :=
  repeat (apply Forall_cons; [tac |]); apply Forall_nil.

Ltac load_step :=
  match goal with
  | |- load_kept ?p ?m ?a ?cap ?i =>
      let q := eval vm_compute in (or_zero (rp_demand p m i)) in
      exists q; compare_computed
  end.

(** The route of one vehicle of the stand-in keeps the promises, for a
    capacity [cap] read off the request. *)
Ltac route_step cap :=
  unfold route_respects;
  split; [compare_computed |];
  split; [reflexivity |];
  split; [reflexivity |];
  split; [each_index ltac:(unfold arc_charged; vm_compute; reflexivity) |];
  exists cap;
  split; [reflexivity |];
  split; [intros _; reflexivity |];
  each_index ltac:(idtac; load_step).

Lemma three_customers_valid :
  valid_assignment
    (routing_problem three_customers_data)
    (standin_routing (routing_problem three_customers_data))
    (standin_manager (routing_problem three_customers_data))
    (standin_assignment (routing_problem three_customers_data)).
Proof.
  exists [[1; 2; 3]]. split.
  - apply Forall2_cons; [route_step 10 | apply Forall2_nil].
  - apply Permutation_refl.
Qed.

Lemma depot_two_valid :
  valid_assignment
    (routing_problem depot_two_data)
    (standin_routing (routing_problem depot_two_data))
    (standin_manager (routing_problem depot_two_data))
    (standin_assignment (routing_problem depot_two_data)).
Proof.
  exists [[0; 1]]. split.
  - apply Forall2_cons; [route_step 100 | apply Forall2_nil].
  - apply Permutation_refl.
Qed.

Lemma standin_solves (data : Data) :
  solve_vrp standin_solver data
  = Ok (standin_routing (routing_problem data),
        standin_manager (routing_problem data),
        if standin_feasible (routing_problem data)
        then Some (standin_assignment (routing_problem data))
        else None).
Proof. reflexivity. Qed.

Lemma three_customers_solved :
  solve_vrp standin_solver three_customers_data
  = Ok (standin_routing (routing_problem three_customers_data),
        standin_manager (routing_problem three_customers_data),
        Some (standin_assignment (routing_problem three_customers_data))).
Proof.
  rewrite standin_solves.
  replace (standin_feasible (routing_problem three_customers_data))
    with true by (vm_compute; reflexivity).
  reflexivity.
Qed.

Lemma depot_two_solved :
  solve_vrp standin_solver depot_two_data
  = Ok (standin_routing (routing_problem depot_two_data),
        standin_manager (routing_problem depot_two_data),
        Some (standin_assignment (routing_problem depot_two_data))).
Proof.
  rewrite standin_solves.
  replace (standin_feasible (routing_problem depot_two_data))
    with true by (vm_compute; reflexivity).
  reflexivity.
Qed.

Lemma overload_unsolved :
  solve_vrp standin_solver overload_data
  = Ok (standin_routing (routing_problem overload_data),
        standin_manager (routing_problem overload_data),
        None).
Proof.
  rewrite standin_solves.
  replace (standin_feasible (routing_problem overload_data))
    with false by (vm_compute; reflexivity).
  reflexivity.
Qed.

(** C8 on the three customers: the response holds the one tour of the
    stand-in's assignment with its arc costs, the cost of the drive 0, 1, 2,
    3, 0. *)
Lemma distances_on_three_customers :
  exists tours,
    Forall2 (route_respects
               (routing_problem three_customers_data)
               (standin_routing (routing_problem three_customers_data))
               (standin_manager (routing_problem three_customers_data))
               (standin_assignment (routing_problem three_customers_data)))
            (range (num_vehicles three_customers_data)) tours
    /\ handle_vrp_request standin_randint standin_solver 6 three_customers
       = (Some ({| solution_status := "OPTIMAL";
                   error := None;
                   objective_value :=
                     Some (ObjectiveValue
                             (standin_assignment
                                (routing_problem three_customers_data))
                           # 1000);
                   routes :=
                     Some (map (fun vt =>
                                  {| vehicle_id := fst vt + 1;
                                     route_nodes :=
                                       map (IndexToNode
                                              (standin_manager
                                                 (routing_problem
                                                    three_customers_data)))
                                           (snd vt);
                                     total_distance :=
                                       arc_total
                                         (standin_routing
                                            (routing_problem
                                               three_customers_data))
                                         (standin_assignment
                                            (routing_problem
                                               three_customers_data))
                                         (fst vt)
                                         (routing_Start
                                            (standin_routing
                                               (routing_problem
                                                  three_customers_data))
                                            (fst vt)
                                            :: snd vt) # 1000;
                                     total_load :=
                                       CumulValue
                                         (standin_assignment
                                            (routing_problem
                                               three_customers_data))
                                         (routing_End
                                            (standin_routing
                                               (routing_problem
                                                  three_customers_data))
                                            (fst vt)) |})
                               (combine
                                  (range (num_vehicles three_customers_data))
                                  tours))
                |}, 200),
          [CallSolve three_customers_data])
    /\ Forall2 (fun v mids =>
                  path_cost (distance_matrix three_customers_data)
                            (depot_index three_customers_data
                               :: map (IndexToNode
                                         (standin_manager
                                            (routing_problem
                                               three_customers_data)))
                                      mids
                               ++ [depot_index three_customers_data])
                  = Ok (arc_total
                          (standin_routing
                             (routing_problem three_customers_data))
                          (standin_assignment
                             (routing_problem three_customers_data))
                          v
                          (routing_Start
                             (standin_routing
                                (routing_problem three_customers_data)) v
                             :: mids)))
               (range (num_vehicles three_customers_data)) tours.
Proof.
  apply (distances_are_scaled_path_costs
           standin_randint standin_solver 6 three_customers
           three_customers_data
           (standin_routing (routing_problem three_customers_data))
           (standin_manager (routing_problem three_customers_data))
           (standin_assignment (routing_problem three_customers_data))).
  - vm_compute. reflexivity.
  - exact three_customers_solved.
  - exact three_customers_valid.
  - simpl. lia.
Defined.

(** C2 on the three customers: the load 9 of the only route is within the
    capacity 10 of vehicle 1. *)
Lemma capacity_on_three_customers :
  exists rs,
    handle_vrp_request standin_randint standin_solver 6 three_customers
    = (Some (optimal_body
               (standin_assignment (routing_problem three_customers_data))
               rs, 200),
       [CallSolve three_customers_data])
    /\ map vehicle_id rs
       = map (fun v => v + 1) (range (num_vehicles three_customers_data))
    /\ Forall (fun rt =>
                 exists cap load,
                   getitem (vehicle_capacities three_customers_data)
                           (vehicle_id rt - 1) = Ok cap
                   /\ total_load rt <= cap
                   /\ route_demand (demands three_customers_data)
                                   (route_nodes rt) = Ok load
                   /\ load <= cap) rs.
Proof.
  apply (routes_respect_capacity
           standin_randint standin_solver 6 three_customers
           three_customers_data
           (standin_routing (routing_problem three_customers_data))
           (standin_manager (routing_problem three_customers_data))
           (standin_assignment (routing_problem three_customers_data))).
  - vm_compute. reflexivity.
  - exact three_customers_solved.
  - exact three_customers_valid.
  - simpl. lia.
Defined.

(** With depot 0, customers 1, 2 and 3 are each listed once. *)
Lemma coverage_on_three_customers :
  exists rs,
    handle_vrp_request standin_randint standin_solver 6 three_customers
    = (Some (optimal_body
               (standin_assignment (routing_problem three_customers_data))
               rs, 200),
       [CallSolve three_customers_data])
    /\ (forall n, 1 <= n <= num_locations three_customers_data - 1 ->
                  count_occ Z.eq_dec (all_route_nodes rs) n = 1%nat)
    /\ (forall n, ~ (1 <= n <= num_locations three_customers_data - 1) ->
                  count_occ Z.eq_dec (all_route_nodes rs) n = 0%nat).
Proof.
  apply (every_customer_once_with_depot_zero
           standin_randint standin_solver 6 three_customers
           three_customers_data
           (standin_routing (routing_problem three_customers_data))
           (standin_manager (routing_problem three_customers_data))
           (standin_assignment (routing_problem three_customers_data))).
  - vm_compute. reflexivity.
  - exact three_customers_solved.
  - exact three_customers_valid.
  - simpl. lia.
  - reflexivity.
Defined.

(** C1 at [depot_index = 2]: customer 2 is on no route, location 0 is. *)
Lemma depot_two_drops_customer_two :
  exists rs,
    handle_vrp_request standin_randint standin_solver 5 depot_two
    = (Some (optimal_body
               (standin_assignment (routing_problem depot_two_data))
               rs, 200),
       [CallSolve depot_two_data])
    /\ count_occ Z.eq_dec (all_route_nodes rs) 2 = 0%nat
    /\ count_occ Z.eq_dec (all_route_nodes rs) 0 = 1%nat.
Proof.
  apply (customer_at_depot_index_is_dropped
           standin_randint standin_solver 5 depot_two
           depot_two_data
           (standin_routing (routing_problem depot_two_data))
           (standin_manager (routing_problem depot_two_data))
           (standin_assignment (routing_problem depot_two_data))).
  - vm_compute. reflexivity.
  - exact depot_two_solved.
  - exact depot_two_valid.
  - simpl. lia.
  - simpl. lia.
Defined.



(** C4 on a [LocationID] of 3 among two customers. *)
Lemma bad_location_is_refused :
  exists bad,
    In bad (customer_rows bad_location)
    /\ ~ (1 <= LocationID bad <= len (customer_rows bad_location))
    /\ handle_vrp_request standin_randint standin_solver 5 bad_location
       = (Some ({| solution_status := "ERROR";
                   error := Some (invalid_location_message
                                    (LocationID bad)
                                    (len (customer_rows bad_location)));
                   objective_value := None;
                   routes := None |}, 500),
          [Printed (error_line
                      (ValueError (invalid_location_message
                                     (LocationID bad)
                                     (len (customer_rows bad_location)))))])
    /\ forall data,
         ~ In (CallSolve data)
              (snd (handle_vrp_request standin_randint standin_solver 5
                                       bad_location)).
Proof.
  apply (invalid_location_fails_fast
           standin_randint standin_solver 5 bad_location
           {| LocationID := 3; Demand := 6 |}).
  - simpl. right. left. reflexivity.
  - vm_compute. intros [_ H]. apply H. reflexivity.
Defined.

(** C5, against the claim: with no vehicle at all, and with a vehicle of
    capacity -5, [solve_vrp] is entered whatever the library and the random
    draws are. *)
Lemma unchecked_fleet_reaches_solver :
  (exists data,
      num_vehicles data = 0
      /\ forall randint ortools fuel,
           In (CallSolve data)
              (snd (handle_vrp_request randint ortools fuel no_fleet)))
  /\ (exists data,
         vehicle_capacities data = [-5]
         /\ forall randint ortools fuel,
              In (CallSolve data)
                 (snd (handle_vrp_request randint ortools fuel
                                          negative_capacity))).
Proof.
  split.
  - exists (lone_depot []). split; [reflexivity |].
    intros randint ortools fuel. apply solve_called_iff. reflexivity.
  - exists (lone_depot [-5]). split; [reflexivity |].
    intros randint ortools fuel. apply solve_called_iff. reflexivity.
Qed.

(** C5 as amended, on the vehicle of capacity -5. *)
Lemma negative_capacity_is_passed_on :
  exists data,
    In (CallSolve data)
       (snd (handle_vrp_request standin_randint standin_solver 5
                                negative_capacity))
    /\ num_vehicles data = len (fleet negative_capacity)
    /\ vehicle_capacities data = fleet negative_capacity.
Proof.
  apply (fleet_is_not_validated
           standin_randint standin_solver 5 negative_capacity).
  reflexivity.
Defined.

(** C6 at [depot_index = 2]: the request is accepted and the depot carries
    the demand 7 of customer 2. *)
Lemma depot_two_carries_demand :
  exists data,
    In (CallSolve data)
       (snd (handle_vrp_request standin_randint standin_solver 5 depot_two))
    /\ depot_index data = 2
    /\ getitem (demands data) (depot_index data) = Ok 7.
Proof.
  assert (Hrows : forallb (valid_row (len (customer_rows depot_two) + 1))
                          (customer_rows depot_two) = true)
    by reflexivity.
  assert (Hdepot2 : 1 <= get (req_depot_index depot_two) 0
                    <= len (customer_rows depot_two))
    by (vm_compute; split; intros H; discriminate H).
  destruct (depot_demand_follows_customer_rows
              standin_randint standin_solver 5 depot_two Hrows Hdepot2)
    as (data & Hcall & Hdepot & Hdemand).
  exists data. split; [exact Hcall |]. split; [exact Hdepot |].
  rewrite Hdemand, Hdepot. reflexivity.
Defined.

(** With depot 0 the depot of the rewritten request has demand 0. *)
Lemma rewritten_depot_has_no_demand :
  getitem (demands rewritten_data) 0 = Ok 0.
Proof.
  apply (depot_zero_has_no_demand
           standin_randint standin_solver 5 rewritten rewritten_data).
  apply solve_called_iff. vm_compute. reflexivity.
Defined.

(** C9 for three locations. *)
Lemma three_locations_matrix :
  exists matrix,
    create_distance_matrix standin_randint 3 = Ok matrix
    /\ cost_matrix 3 matrix.
Proof.
  apply (create_distance_matrix_contract
           standin_randint 3 standin_randint_range).
  lia.
Defined.

(** C10 on the rewritten request: the later row for location 1 wins, with
    its negative demand, and location 2, which no row names, has demand 0. *)
Lemma rewritten_demands :
  getitem (demands rewritten_data) 1 = Ok (-3)
  /\ getitem (demands rewritten_data) 2 = Ok 0.
Proof.
  assert (Hcall : In (CallSolve rewritten_data)
                     (snd (handle_vrp_request standin_randint standin_solver
                                              5 rewritten)))
    by (apply solve_called_iff; vm_compute; reflexivity).
  destruct (demand_vector_is_last_write
              standin_randint standin_solver 5 rewritten rewritten_data Hcall)
    as [_ Hval].
  split.
  - apply (Hval 1). vm_compute. split; [intros H; discriminate H | reflexivity].
  - apply (Hval 2). vm_compute. split; [intros H; discriminate H | reflexivity].
Defined.

(** * Further properties of the code *)

(** ** Every entry of the distance matrix *)

Lemma nth_error_snoc {A : Type} (l : list A) (y x : A) (j : nat) :
  nth_error (l ++ [y]) j = Some x ->
  nth_error l j = Some x \/ (j = List.length l /\ x = y).
Proof.
  intros H. destruct (Nat.lt_ge_cases j (List.length l)) as [Hlt | Hge].
  - left. rewrite nth_error_app1 in H by assumption. assumption.
  - right. rewrite nth_error_app2 in H by assumption.
    destruct (j - List.length l)%nat as [| d] eqn:E; simpl in H.
    + injection H as <-. split; [lia | reflexivity].
    + destruct d; discriminate.
Qed.

Lemma entry_app_old (matrix : list (list Z)) (row : list Z) (r c : nat) :
  (r < List.length matrix)%nat ->
  entry (matrix ++ [row]) r c = entry matrix r c.
Proof.
  intros H. unfold entry. rewrite nth_error_app1 by assumption. reflexivity.
Qed.

Lemma entry_app_new (matrix : list (list Z)) (row : list Z) (c : nat) :
  entry (matrix ++ [row]) (List.length matrix) c = nth_error row c.
Proof.
  unfold entry. rewrite nth_error_app2 by lia.
  rewrite Nat.sub_diag. reflexivity.
Qed.

Lemma entry_inside (matrix : list (list Z)) (r c : nat) (x : Z) :
  entry matrix r c = Some x -> (r < List.length matrix)%nat.
Proof.
  unfold entry. intros H. apply nth_error_Some.
  destruct (nth_error matrix r); [discriminate | discriminate H].
Qed.

Lemma cell_entry (matrix : list (list Z)) (r c : nat) (x : Z) :
  entry matrix r c = Some x ->
  cell matrix (Z.of_nat r) (Z.of_nat c) = Ok x.
Proof.
  unfold entry, cell. intros H.
  destruct (nth_error matrix r) as [row |] eqn:Er; [| discriminate].
  rewrite (getitem_inside matrix (Z.of_nat r) row)
    by (rewrite ?Nat2Z.id; auto; lia).
  simpl. apply getitem_inside; [lia |]. rewrite Nat2Z.id. assumption.
Qed.

Section MatrixEntries.

Variable randint : nat -> Z.

Lemma fill_row_filled (matrix : list (list Z)) (a : nat) :
  forall (cnt b : nat) (row : list Z) (k : nat) (row' : list Z) (k' : nat),
    fill_row randint matrix (Z.of_nat a) (map Z.of_nat (seq b cnt)) row k
    = Ok (row', k') ->
    List.length row = b ->
    row_filled randint matrix a row ->
    List.length row' = (b + cnt)%nat /\ row_filled randint matrix a row'.
Proof.
  induction cnt as [| cnt IH]; intros b row k row' k' Hfill Hlen Hrow.
  - simpl in Hfill. injection Hfill as <- <-. split; [lia | assumption].
  - simpl in Hfill.
    assert (Hsnoc : forall y,
               (y = 0 /\ b = a)
               \/ ((b < a)%nat /\ entry matrix b a = Some y)
               \/ ((a < b)%nat /\ exists k0, y = randint k0) ->
               row_filled randint matrix a (row ++ [y])).
    { intros y Hy j x Hj. apply nth_error_snoc in Hj.
      destruct Hj as [Hj | [-> ->]]; [apply Hrow; assumption |].
      rewrite Hlen. destruct Hy as [[-> ->] | [H | H]]; auto. }
    destruct (Z.eqb_spec (Z.of_nat a) (Z.of_nat b)) as [E | NE].
    + apply Nat2Z.inj in E.
      apply IH in Hfill.
      * destruct Hfill as [H1 H2]. split; [lia | assumption].
      * rewrite length_app. simpl. lia.
      * apply Hsnoc. left. split; [reflexivity | lia].
    + destruct (Z.ltb_spec (Z.of_nat b) (Z.of_nat a)) as [Hlt | Hge].
      * destruct (getitem matrix (Z.of_nat b)) as [r | e] eqn:Er;
          simpl in Hfill; [| discriminate].
        destruct (getitem r (Z.of_nat a)) as [x | e] eqn:Ex;
          simpl in Hfill; [| discriminate].
        apply getitem_Ok_inv in Er; [| lia]. destruct Er as [_ Er].
        apply getitem_Ok_inv in Ex; [| lia]. destruct Ex as [_ Ex].
        rewrite Nat2Z.id in Er, Ex.
        apply IH in Hfill.
        -- destruct Hfill as [H1 H2]. split; [lia | assumption].
        -- rewrite length_app. simpl. lia.
        -- apply Hsnoc. right. left. split; [lia |].
           unfold entry. rewrite Er. assumption.
      * apply IH in Hfill.
        -- destruct Hfill as [H1 H2]. split; [lia | assumption].
        -- rewrite length_app. simpl. lia.
        -- apply Hsnoc. right. right. split; [lia |]. eexists. reflexivity.
Qed.

Lemma rows_filled_snoc (n a : nat) (matrix : list (list Z)) (row : list Z) :
  (a < n)%nat ->
  rows_filled randint n a matrix ->
  List.length row = n ->
  row_filled randint matrix a row ->
  rows_filled randint n (S a) (matrix ++ [row]).
Proof.
  intros Han (Hlen & Hrows & Hent) Hrow Hfilled.
  split; [rewrite length_app; simpl; lia |].
  split; [apply Forall_app; split; [assumption | repeat constructor; assumption] |].
  intros r c x Hx.
  pose proof (entry_inside _ _ _ _ Hx) as Hr.
  rewrite length_app in Hr. simpl in Hr.
  destruct (Nat.eq_dec r a) as [-> | Hne].
  - rewrite <- Hlen in Hx at 1. rewrite entry_app_new in Hx.
    destruct (Hfilled c x Hx) as [[-> ->] | [[Hca Hold] | [Hac Hdraw]]].
    + left. split; reflexivity.
    + right. split; [lia |].
      destruct (Hent c a x Hold) as [[-> _] | (_ & Hk & _)]; [lia |].
      split; [assumption |]. intros _.
      rewrite entry_app_old by lia. assumption.
    + right. split; [lia |]. split; [assumption |]. intros H. lia.
  - rewrite entry_app_old in Hx by lia.
    destruct (Hent r c x Hx) as [[-> ->] | (Hrc & Hk & Hmirror)].
    + left. split; reflexivity.
    + right. split; [assumption |]. split; [assumption |]. intros Hc.
      destruct (Nat.eq_dec c a) as [-> | Hca].
      * rewrite <- Hlen at 1. rewrite entry_app_new.
        destruct (nth_error row r) as [y |] eqn:Ey;
          [| apply nth_error_None in Ey; lia].
        destruct (Hfilled r y Ey) as [[-> _] | [[_ Hold] | [Hlt _]]];
          [lia | | lia].
        rewrite Hx in Hold. injection Hold as ->. reflexivity.
      * rewrite entry_app_old by lia. apply Hmirror. lia.
Qed.

Lemma fill_matrix_filled (n : nat) :
  forall (cnt a : nat) (matrix : list (list Z)) (k : nat)
         (matrix' : list (list Z)),
    fill_matrix randint (Z.of_nat n) (map Z.of_nat (seq a cnt)) matrix k
    = Ok matrix' ->
    (a + cnt = n)%nat ->
    rows_filled randint n a matrix ->
    rows_filled randint n n matrix'.
Proof.
  induction cnt as [| cnt IH]; intros a matrix k matrix' Hfill Ha Hinv.
  - simpl in Hfill. injection Hfill as <-.
    assert (E : a = n) by lia. rewrite E in Hinv. assumption.
  - simpl in Hfill. unfold range in Hfill. rewrite Nat2Z.id in Hfill.
    destruct (fill_row randint matrix (Z.of_nat a)
                       (map Z.of_nat (seq 0 n)) [] k)
      as [[row k'] | e] eqn:Hrow; simpl in Hfill; [| discriminate].
    apply (fill_row_filled matrix a n 0%nat [] k row k') in Hrow;
      [| reflexivity | intros j x Hj; destruct j; discriminate Hj].
    destruct Hrow as [Hlen Hfilled]. simpl in Hlen.
    apply IH in Hfill; [assumption | lia |].
    apply rows_filled_snoc; auto. lia.
Qed.

(** The matrix, entry by entry: it exists for every location count, has
    [max n 1] rows, and the entries [i, j] and [j, i] are the same value,
    0 when [i = j] and a random draw otherwise. *)
Lemma create_distance_matrix_entries (locations : Z) :
  exists matrix,
    create_distance_matrix randint locations = Ok matrix
    /\ len matrix = Z.max locations 1
    /\ forall i j,
         0 <= i < len matrix -> 0 <= j < len matrix ->
         exists x,
           cell matrix i j = Ok x
           /\ cell matrix j i = Ok x
           /\ (i = j -> x = 0)
           /\ (i <> j -> exists k, x = randint k).
Proof.
  destruct (Z.leb_spec locations 1) as [Hle | Hgt].
  - exists [[0]]. split.
    { unfold create_distance_matrix.
      destruct (Z.leb_spec locations 1); [reflexivity | lia]. }
    split; [unfold len; simpl; lia |].
    unfold len. simpl. intros i j Hi Hj.
    assert (i = 0) by lia. assert (j = 0) by lia. subst i j.
    exists 0. repeat split; auto. intros H. contradiction.
  - destruct (create_distance_matrix_total randint locations)
      as (matrix & Hm).
    exists matrix. split; [assumption |].
    unfold create_distance_matrix in Hm.
    destruct (Z.leb_spec locations 1) as [| _]; [lia |].
    unfold range in Hm.
    rewrite <- (Z2Nat.id locations) in Hm at 1 by lia.
    apply (fill_matrix_filled (Z.to_nat locations)
             (Z.to_nat locations) 0%nat [] 0%nat matrix) in Hm;
      [| lia |].
    + destruct Hm as (Hlen & Hrows & Hent).
      split; [unfold len; lia |].
      unfold len. rewrite Hlen. intros i j Hi Hj.
      destruct (nth_error matrix (Z.to_nat i)) as [row |] eqn:Erow;
        [| apply nth_error_None in Erow; lia].
      assert (Hrl : List.length row = Z.to_nat locations).
      { rewrite Forall_forall in Hrows. apply Hrows.
        eapply nth_error_In; eassumption. }
      destruct (nth_error row (Z.to_nat j)) as [x |] eqn:Ex;
        [| apply nth_error_None in Ex; lia].
      assert (Hentry : entry matrix (Z.to_nat i) (Z.to_nat j) = Some x).
      { unfold entry. rewrite Erow. assumption. }
      exists x.
      pose proof (cell_entry _ _ _ _ Hentry) as Hcell.
      rewrite !Z2Nat.id in Hcell by lia.
      split; [assumption |].
      destruct (Hent _ _ _ Hentry) as [[Heq ->] | (Hne & Hk & Hmirror)].
      * assert (i = j) by lia. subst j.
        split; [assumption |]. split; [reflexivity |].
        intros H. contradiction.
      * specialize (Hmirror ltac:(lia)).
        apply cell_entry in Hmirror. rewrite !Z2Nat.id in Hmirror by lia.
        split; [assumption |]. split; [intros ->; contradiction |].
        intros _. assumption.
    + split; [reflexivity |]. split; [constructor |].
      intros r c x H. destruct r; discriminate H.
Qed.

End MatrixEntries.

(** The matrix is symmetric, whatever the random draws and the location
    count: the entry [j, i] of a later row is copied from the entry [i, j]
    drawn for the earlier one. *)
Theorem create_distance_matrix_symmetric (randint : nat -> Z) (locations : Z) :
  exists matrix,
    create_distance_matrix randint locations = Ok matrix
    /\ forall i j,
         0 <= i < len matrix -> 0 <= j < len matrix ->
         exists x, cell matrix i j = Ok x /\ cell matrix j i = Ok x.
Proof.
  destruct (create_distance_matrix_entries randint locations)
    as (matrix & Hm & _ & Hent).
  exists matrix. split; [assumption |].
  intros i j Hi Hj. destruct (Hent i j Hi Hj) as (x & H1 & H2 & _).
  exists x. split; assumption.
Qed.

(** Between two different locations the distance is one of the random
    draws, so it lies between 500 and 50000 when the draws do: only the
    diagonal is 0. *)
Theorem off_diagonal_distances_in_range (randint : nat -> Z) (locations : Z) :
  (forall k, 500 <= randint k <= 50000) ->
  exists matrix,
    create_distance_matrix randint locations = Ok matrix
    /\ forall i j,
         0 <= i < len matrix -> 0 <= j < len matrix -> i <> j ->
         exists x, cell matrix i j = Ok x /\ 500 <= x <= 50000.
Proof.
  intros Hdraw.
  destruct (create_distance_matrix_entries randint locations)
    as (matrix & Hm & _ & Hent).
  exists matrix. split; [assumption |].
  intros i j Hi Hj Hne.
  destruct (Hent i j Hi Hj) as (x & H1 & _ & _ & Hk).
  destruct (Hk Hne) as (k & ->).
  exists (randint k). split; [assumption | apply Hdraw].
Qed.

(** The callbacks registered by [solve_vrp] raise nothing on the indices of
    the locations: in every dictionary with which [solve_vrp] is entered the
    matrix and the demand vector cover all of [0, num_locations), and the
    distance read in one direction is the distance read in the other. *)
Theorem callbacks_are_defined_on_locations
        (randint : nat -> Z) (ortools : RoutingProblem -> result Solved)
        (fuel : nat) (request_data : Request) (data : Data)
        (manager : RoutingIndexManager) (from_index to_index : Z) :
  In (CallSolve data)
     (snd (handle_vrp_request randint ortools fuel request_data)) ->
  0 <= IndexToNode manager from_index < num_locations data ->
  0 <= IndexToNode manager to_index < num_locations data ->
  exists c q,
    distance_callback data manager from_index to_index = Ok c
    /\ distance_callback data manager to_index from_index = Ok c
    /\ demand_callback data manager from_index = Ok q.
Proof.
  intros Hcall Hfrom Hto. apply solve_called_iff in Hcall.
  pose proof (prepare_data_outcome randint request_data) as Hprep.
  cbv zeta in Hprep.
  destruct (find _ (customer_rows request_data)) as [bad |].
  - rewrite Hprep in Hcall. discriminate.
  - destruct Hprep as (d & Hd & Hmatrix & Hn & _ & _ & _ & Hlen & Hval).
    rewrite Hd in Hcall. injection Hcall as <-.
    destruct (create_distance_matrix_entries
                randint (len (customer_rows request_data) + 1))
      as (matrix & Hm & Hrows & Hent).
    rewrite Hmatrix in Hm. injection Hm as <-.
    pose proof (len_nonneg (customer_rows request_data)) as Hnn.
    rewrite Z.max_l in Hrows by lia. rewrite Hn in Hfrom, Hto.
    destruct (Hent (IndexToNode manager from_index)
                   (IndexToNode manager to_index))
      as (c & H1 & H2 & _); try lia.
    destruct (getitem_total (demands d) (IndexToNode manager from_index))
      as (q & Hq); [lia |].
    exists c, q. repeat split; assumption.
Qed.

(** ** The projection, for any object the library may return *)

Section AnyAssignment.

Variable data : Data.
Variable manager : RoutingIndexManager.
Variable routing : RoutingModel.
Variable solution : Assignment.

Lemma walk_route_extends (v : Z) :
  forall (fuel : nat) (i : Z) (nodes : list Z) (dist : Z)
         (nodes' : list Z) (dist' : Z),
    walk_route fuel data manager routing solution v i nodes dist
    = Some (nodes', dist') ->
    exists ext,
      nodes' = nodes ++ ext
      /\ Forall (fun n => n <> depot_index data) ext.
Proof.
  induction fuel as [| fuel IH]; intros i nodes dist nodes' dist' H;
    simpl in H; [discriminate |].
  destruct (IsEnd routing i).
  - injection H as <- <-. exists []. rewrite app_nil_r.
    split; [reflexivity | constructor].
  - apply IH in H. destruct H as (ext & -> & Hext).
    destruct (Z.eqb_spec (IndexToNode manager i) (depot_index data))
      as [E | NE]; simpl.
    + exists ext. split; [reflexivity | assumption].
    + exists (IndexToNode manager i :: ext). rewrite <- app_assoc.
      split; [reflexivity |]. constructor; assumption.
Qed.

Lemma collect_routes_shape (fuel : nat) :
  forall (vs : list Z) (acc rs : list RouteJson),
    collect_routes fuel data manager routing solution vs acc = Some rs ->
    exists added,
      rs = acc ++ added
      /\ map vehicle_id added = map (fun v => v + 1) vs
      /\ Forall (fun rt => ~ In (depot_index data) (route_nodes rt)) added.
Proof.
  induction vs as [| v vs IH]; intros acc rs H; simpl in H.
  - injection H as <-. exists []. rewrite app_nil_r.
    split; [reflexivity |]. split; [reflexivity | constructor].
  - destruct (walk_route fuel data manager routing solution v
                         (routing_Start routing v) [] 0)
      as [[nodes dist] |] eqn:Hwalk; [| discriminate].
    apply walk_route_extends in Hwalk. destruct Hwalk as (ext & -> & Hext).
    apply IH in H. destruct H as (added & -> & Hids & Hnodes).
    eexists (_ :: added). rewrite <- app_assoc.
    split; [reflexivity |]. split.
    + simpl. f_equal. assumption.
    + constructor; [| assumption]. simpl. intros Hin.
      rewrite Forall_forall in Hext. exact (Hext _ Hin eq_refl).
Qed.

End AnyAssignment.

(** Whatever assignment the library hands back, a body that
    [get_solution_details] builds from it has status ['OPTIMAL'], the
    objective over 1000, one route per vehicle with [vehicle_id] counting
    from 1 in fleet order, and no route that lists the depot index. *)
Theorem optimal_body_shape
        (fuel : nat) (data : Data) (manager : RoutingIndexManager)
        (routing : RoutingModel) (solution : Assignment)
        (body : ResponseBody) :
  get_solution_details fuel data manager routing (Some solution) = Some body ->
  solution_status body = "OPTIMAL"%string
  /\ error body = None
  /\ objective_value body = Some (ObjectiveValue solution # 1000)
  /\ exists rs,
       routes body = Some rs
       /\ map vehicle_id rs
          = map (fun v => v + 1) (range (num_vehicles data))
       /\ Forall (fun rt => ~ In (depot_index data) (route_nodes rt)) rs.
Proof.
  unfold get_solution_details. intros H.
  destruct (collect_routes fuel data manager routing solution
                           (range (num_vehicles data)) [])
    as [rs |] eqn:Hrs; [| discriminate].
  injection H as <-. simpl.
  apply collect_routes_shape in Hrs. destruct Hrs as (added & -> & Hids & Hn).
  repeat split; try reflexivity.
  exists added. simpl. repeat split; assumption.
Qed.


(** ** The kinds of response *)

Section Responses.

Variable randint : nat -> Z.
Variable ortools : RoutingProblem -> result Solved.

Lemma prepare_data_fields (request_data : Request) (data : Data) :
  prepare_data randint request_data = Ok data ->
  fill_demands (len (customer_rows request_data) + 1)
               (len (customer_rows request_data))
               (customer_rows request_data)
               (repeat 0 (Z.to_nat (len (customer_rows request_data) + 1)))
  = Ok (demands data)
  /\ num_locations data = len (customer_rows request_data) + 1
  /\ num_vehicles data = len (fleet request_data)
  /\ vehicle_capacities data = fleet request_data
  /\ depot_index data = get (req_depot_index request_data) 0.
Proof.
  unfold prepare_data. fold (customer_rows request_data).
  fold (fleet request_data).
  destruct (fill_demands _ _ _ _) as [filled | e]; simpl; [| discriminate].
  destruct (create_distance_matrix _ _) as [matrix | e]; simpl;
    [| discriminate].
  intros H. injection H as <-. simpl. repeat split; reflexivity.
Qed.

Lemma prepare_data_raises (request_data : Request) (e : exn) :
  prepare_data randint request_data = Raise e ->
  exists bad,
    In bad (customer_rows request_data)
    /\ ~ (1 <= LocationID bad <= len (customer_rows request_data))
    /\ e = ValueError (invalid_location_message
                         (LocationID bad)
                         (len (customer_rows request_data))).
Proof.
  intros He.
  pose proof (prepare_data_outcome randint request_data) as Hprep.
  cbv zeta in Hprep.
  destruct (find _ (customer_rows request_data)) as [bad |] eqn:Hfind.
  - apply find_some in Hfind. destruct Hfind as [Hin Hbad].
    exists bad. split; [assumption |]. split.
    + apply negb_true_iff, not_true_iff_false in Hbad.
      rewrite valid_row_spec in Hbad. lia.
    + rewrite Hprep in He. injection He as <-. reflexivity.
  - destruct Hprep as (d & Hd & _). rewrite Hd in He. discriminate.
Qed.

(** Every response is of one of three kinds.  An error has status 500,
    [solution_status] ['ERROR'], a message and no routes, and the message is
    printed; the two others have status 200 and no error key, nothing is
    printed, and the body is either the no-solution body or an ['OPTIMAL']
    body with as many routes as [vehicle_capacities] has entries. *)
Theorem response_kinds
        (fuel : nat) (request_data : Request) (body : ResponseBody) (code : Z) :
  fst (handle_vrp_request randint ortools fuel request_data)
  = Some (body, code) ->
  (code = 500
   /\ solution_status body = "ERROR"%string
   /\ routes body = None
   /\ objective_value body = None
   /\ exists msg,
        error body = Some msg
        /\ In (Printed ("Error during VRP solving: " ++ msg)%string)
              (snd (handle_vrp_request randint ortools fuel request_data)))
  \/ (code = 200
      /\ error body = None
      /\ (exists data,
             snd (handle_vrp_request randint ortools fuel request_data)
             = [CallSolve data])
      /\ (body = no_solution_body
          \/ (solution_status body = "OPTIMAL"%string
              /\ exists rs,
                   routes body = Some rs
                   /\ len rs = len (fleet request_data)))).
Proof.
  unfold handle_vrp_request.
  destruct (prepare_data randint request_data) as [d | e] eqn:Hd; simpl.
  - destruct (solve_vrp ortools d) as [[[routing manager] solution] | e];
      simpl.
    + destruct (get_solution_details fuel d manager routing solution)
        as [b |] eqn:Hb; simpl; [| discriminate].
      intros H. injection H as <- <-. right.
      destruct solution as [s |].
      * destruct (optimal_body_shape _ _ _ _ _ _ Hb)
          as (Hst & Herr & _ & rs & Hrs & Hids & _).
        split; [reflexivity |]. split; [assumption |].
        split; [exists d; reflexivity |]. right.
        split; [assumption |]. exists rs. split; [assumption |].
        apply (f_equal (@List.length Z)) in Hids.
        rewrite !length_map, range_length in Hids.
        destruct (prepare_data_fields _ _ Hd) as (_ & _ & Hv & _).
        rewrite Hv in Hids. unfold len in *. lia.
      * simpl in Hb. injection Hb as <-.
        split; [reflexivity |]. split; [reflexivity |].
        split; [exists d; reflexivity |]. left. reflexivity.
    + intros H. injection H as <- <-. left. simpl.
      repeat split; try reflexivity.
      exists (str_exn e). split; [reflexivity |]. right. left. reflexivity.
  - intros H. injection H as <- <-. left. simpl.
    repeat split; try reflexivity.
    exists (str_exn e). split; [reflexivity |]. left. reflexivity.
Qed.

(** The handler answers 500 in exactly two cases: a row of [customer_data]
    has a [LocationID] outside [1, N-1], or the library raises inside
    [solve_vrp].  Building the demand vector and the matrix never raises
    otherwise. *)
Theorem errors_are_bad_rows_or_solver_exceptions
        (fuel : nat) (request_data : Request) :
  (exists body,
      fst (handle_vrp_request randint ortools fuel request_data)
      = Some (body, 500))
  <-> (exists row,
          In row (customer_rows request_data)
          /\ ~ (1 <= LocationID row <= len (customer_rows request_data)))
      \/ (exists data e,
             prepare_data randint request_data = Ok data
             /\ solve_vrp ortools data = Raise e).
Proof.
  unfold handle_vrp_request. split.
  - intros (body & H).
    destruct (prepare_data randint request_data) as [d | e] eqn:Hd.
    + destruct (solve_vrp ortools d) as [[[routing manager] solution] | e]
        eqn:Hs.
      * destruct (get_solution_details fuel d manager routing solution);
          simpl in H; discriminate.
      * right. exists d, e. split; [reflexivity | assumption].
    + left. destruct (prepare_data_raises _ _ Hd) as (bad & Hin & Hbad & _).
      exists bad. split; assumption.
  - intros [(row & Hin & Hbad) | (d & e & Hd & Hs)].
    + assert (Hv : valid_row (len (customer_rows request_data) + 1) row
                   = false).
      { apply not_true_iff_false. rewrite valid_row_spec. lia. }
      destruct (first_invalid_row _ _ _ Hin Hv) as (bad & Hfind & _).
      pose proof (prepare_data_outcome randint request_data) as Hprep.
      cbv zeta in Hprep. rewrite Hfind in Hprep. rewrite Hprep.
      eexists. reflexivity.
    + rewrite Hd, Hs. eexists. reflexivity.
Qed.

(** A request without customers, whether the key is missing or the list is
    empty, is not refused: [solve_vrp] is entered with the depot as the only
    location, and a missing [vehicle_capacities] or [depot_index] stands for
    no vehicle and for depot 0. *)
Theorem no_customers_is_accepted (fuel : nat) (request_data : Request) :
  customer_rows request_data = [] ->
  snd (handle_vrp_request randint ortools fuel request_data)
  = CallSolve {| distance_matrix := [[0]];
                 demands := [0];
                 num_locations := 1;
                 num_vehicles := len (fleet request_data);
                 depot_index := get (req_depot_index request_data) 0;
                 vehicle_capacities := fleet request_data |}
    :: match solve_vrp ortools
               {| distance_matrix := [[0]];
                  demands := [0];
                  num_locations := 1;
                  num_vehicles := len (fleet request_data);
                  depot_index := get (req_depot_index request_data) 0;
                  vehicle_capacities := fleet request_data |} with
       | Ok _ => []
       | Raise e => [Printed (error_line e)]
       end.
Proof.
  intros Hrows. unfold handle_vrp_request, prepare_data.
  fold (customer_rows request_data). fold (fleet request_data).
  rewrite Hrows. simpl.
  destruct (solve_vrp ortools _) as [[[routing manager] solution] | e];
    [| reflexivity].
  destruct (get_solution_details fuel _ manager routing solution);
    reflexivity.
Qed.

End Responses.

(** ** Loads and demands *)

Lemma route_load_exact (data : Data) (manager : RoutingIndexManager)
      (routing : RoutingModel) (solution : Assignment) (v : Z)
      (mids : list Z) :
  route_respects (routing_problem data) routing manager solution v mids ->
  exists q0 load,
    getitem (demands data) (depot_index data) = Ok q0
    /\ route_demand (demands data) (map (IndexToNode manager) mids) = Ok load
    /\ CumulValue solution (routing_End routing v) = q0 + load.
Proof.
  intros (Hchain & Hstart & _ & _ & cap & _ & Hzero & Hloads).
  destruct (load_along_chain data manager routing solution cap _ _ _
                             Hchain Hloads) as (qs & Hqs & Hsum & _).
  specialize (Hzero eq_refl).
  inversion Hqs as [| j q0 ? qs' Hq0 Hqs']; subst.
  exists q0, (sum_Z qs'). split; [| split].
  - unfold demand_callback in Hq0. simpl in Hstart.
    rewrite Hstart in Hq0. assumption.
  - apply route_demand_of_callbacks. assumption.
  - rewrite Hsum, Hzero, sum_Z_cons. lia.
Qed.

Lemma prepared_depot_zero (randint : nat -> Z) (request_data : Request)
      (data : Data) :
  prepare_data randint request_data = Ok data ->
  getitem (demands data) 0 = Ok 0.
Proof.
  intros Hd.
  pose proof (prepare_data_outcome randint request_data) as Hprep.
  cbv zeta in Hprep.
  destruct (find _ (customer_rows request_data)) as [bad |] eqn:Hfind.
  - rewrite Hprep in Hd. discriminate.
  - destruct Hprep as (d & Hd' & _ & _ & _ & _ & _ & Hlen & Hval).
    rewrite Hd' in Hd. injection Hd as <-.
    apply getitem_inside; [lia |].
    rewrite (Hval 0)
      by (pose proof (len_nonneg (customer_rows request_data)); lia).
    f_equal. apply last_demand_unnamed.
    rewrite Forall_forall. intros row Hin Hzero.
    apply (find_none _ _ Hfind) in Hin.
    apply negb_false_iff, valid_row_spec in Hin. lia.
Qed.

(** The [total_load] of a route is the demand stored at the depot index
    plus the demands of the route's customers; with the depot at 0 it is
    exactly the demand of the route's customers. *)
Theorem total_load_is_route_demand
        (randint : nat -> Z) (ortools : RoutingProblem -> result Solved)
        (fuel : nat) (request_data : Request) (data : Data)
        (routing : RoutingModel) (manager : RoutingIndexManager)
        (solution : Assignment) :
  prepare_data randint request_data = Ok data ->
  solve_vrp ortools data = Ok (routing, manager, Some solution) ->
  valid_assignment (routing_problem data) routing manager solution ->
  (Z.to_nat (num_locations data) + 2 <= fuel)%nat ->
  exists rs,
    handle_vrp_request randint ortools fuel request_data
    = (Some (optimal_body solution rs, 200), [CallSolve data])
    /\ Forall (fun rt =>
                 exists q0 load,
                   getitem (demands data) (depot_index data) = Ok q0
                   /\ route_demand (demands data) (route_nodes rt) = Ok load
                   /\ total_load rt = q0 + load
                   /\ (depot_index data = 0 -> total_load rt = load)) rs.
Proof.
  intros Hprep Hsolve (tours & Hrespect & Hcover) Hfuel.
  exists (routes_of_tours manager routing solution
                          (range (num_vehicles data)) tours).
  split; [apply success_response; assumption |].
  eapply routes_of_tours_Forall; [| exact Hrespect].
  intros v mids Hv. simpl.
  destruct (route_load_exact data manager routing solution v mids Hv)
    as (q0 & load & Hq0 & Hload & Hend).
  exists q0, load. repeat split; try assumption.
  intros Hzero. rewrite Hzero in Hq0.
  rewrite (prepared_depot_zero randint request_data data Hprep) in Hq0.
  injection Hq0 as <-. lia.
Qed.

Lemma concat_nil_all {A : Type} (ls : list (list A)) :
  List.concat ls = [] -> Forall (fun l => l = []) ls.
Proof.
  induction ls as [| l rest IH]; simpl; intros H; constructor.
  - destruct l; [reflexivity | discriminate].
  - apply IH. destruct l; [assumption | discriminate].
Qed.

Lemma empty_tours_routes (capacities : list Z)
      (routing : RoutingModel) (manager : RoutingIndexManager)
      (solution : Assignment) (vs : list Z) (tours : list (list Z)) :
  Forall2 (route_respects (routing_problem (lone_depot capacities))
                          routing manager solution) vs tours ->
  Forall (fun l => l = []) tours ->
  routes_of_tours manager routing solution vs tours
  = map (fun v => {| vehicle_id := v + 1;
                     route_nodes := [];
                     total_distance := 0 # 1000;
                     total_load := 0 |}) vs.
Proof.
  intros Hrespect Hempty. unfold routes_of_tours.
  induction Hrespect as [| v mids vs ts Hv _ IH]; simpl; [reflexivity |].
  inversion Hempty as [| ? ? Hmids Hrest]; subst.
  rewrite (IH Hrest). f_equal.
  pose proof (route_distance_is_path_cost _ _ _ _ _ _ Hv) as Hdist.
  destruct (route_load_exact _ _ _ _ _ _ Hv)
    as (q0 & load & Hq0 & Hload & Hend).
  simpl in Hdist, Hq0, Hload. injection Hdist as Hdist.
  injection Hq0 as <-. injection Hload as <-.
  unfold route_json. simpl. rewrite <- Hdist, Hend. reflexivity.
Qed.

(** Without customers and with the depot at 0, a success response gives
    every vehicle the empty route with distance 0 and load 0. *)
Theorem no_customers_gives_empty_routes
        (randint : nat -> Z) (ortools : RoutingProblem -> result Solved)
        (fuel : nat) (request_data : Request)
        (routing : RoutingModel) (manager : RoutingIndexManager)
        (solution : Assignment) :
  customer_rows request_data = [] ->
  get (req_depot_index request_data) 0 = 0 ->
  solve_vrp ortools (lone_depot (fleet request_data))
  = Ok (routing, manager, Some solution) ->
  valid_assignment (routing_problem (lone_depot (fleet request_data)))
                   routing manager solution ->
  (3 <= fuel)%nat ->
  handle_vrp_request randint ortools fuel request_data
  = (Some (optimal_body solution
             (map (fun v => {| vehicle_id := v + 1;
                               route_nodes := [];
                               total_distance := 0 # 1000;
                               total_load := 0 |})
                  (range (len (fleet request_data)))), 200),
     [CallSolve (lone_depot (fleet request_data))]).
Proof.
  intros Hrows Hdepot Hsolve (tours & Hrespect & Hcover) Hfuel.
  assert (Hprep : prepare_data randint request_data
                  = Ok (lone_depot (fleet request_data))).
  { unfold prepare_data. fold (customer_rows request_data).
    fold (fleet request_data). rewrite Hrows, Hdepot. reflexivity. }
  rewrite (success_response randint ortools fuel request_data _ _ _ _ tours
             Hprep Hsolve Hrespect Hcover) by (simpl; lia).
  simpl in Hcover.
  apply Permutation_sym, Permutation_nil in Hcover.
  apply map_eq_nil, concat_nil_all in Hcover.
  exact (f_equal
           (fun rs => (Some (optimal_body solution rs, 200),
                       [CallSolve (lone_depot (fleet request_data))]))
           (empty_tours_routes _ _ _ _ _ _ Hrespect Hcover)).
Qed.

Lemma sum_Z_update (l : list Z) (k : nat) (x : Z) :
  (k < List.length l)%nat ->
  sum_Z (update l k x) = sum_Z l - nth k l 0 + x.
Proof.
  revert k. induction l as [| h t IH]; intros [| k] H; simpl in H;
    try lia.
  - cbn [update nth]. rewrite !sum_Z_cons. lia.
  - cbn [update nth]. rewrite !sum_Z_cons, IH by lia. lia.
Qed.

Lemma nth_update_other (l : list Z) (k j : nat) (x : Z) :
  j <> k -> nth j (update l k x) 0 = nth j l 0.
Proof.
  revert k j. induction l as [| h t IH]; intros [| k] [| j] H; simpl;
    try congruence; auto.
Qed.

Lemma sum_Z_repeat_zero (n : nat) : sum_Z (repeat 0 n) = 0.
Proof.
  induction n as [| n IH]; [reflexivity |].
  simpl repeat. rewrite sum_Z_cons, IH. reflexivity.
Qed.

Lemma nth_repeat_zero (n k : nat) : nth k (repeat 0 n) 0 = 0.
Proof.
  revert k. induction n as [| n IH]; intros [| k]; simpl; auto.
Qed.

(** While the rows written so far and the rows to come name different
    locations, each row adds its [Demand] to the total of the vector. *)
Lemma fill_demands_sum (locations customers_n : Z) :
  forall (rows : list Row) (filled filled' : list Z),
    len filled = locations ->
    NoDup (map LocationID rows) ->
    Forall (fun row => nth (Z.to_nat (LocationID row)) filled 0 = 0) rows ->
    fill_demands locations customers_n rows filled = Ok filled' ->
    sum_Z filled' = sum_Z filled + sum_Z (map Demand rows).
Proof.
  induction rows as [| row rest IH]; intros filled filled' Hlen Hnd Hzero H;
    simpl in H.
  - injection H as <-. simpl. lia.
  - fold (valid_row locations row) in H.
    destruct (valid_row locations row) eqn:Hv; simpl in H; [| discriminate].
    apply valid_row_spec in Hv.
    rewrite setitem_inside in H by lia. simpl in H.
    inversion Hnd as [| ? ? Hnotin Hnd']; subst.
    inversion Hzero as [| ? ? Hz Hzero']; subst.
    apply IH in H; try assumption.
    + rewrite H, sum_Z_update by (unfold len in *; lia).
      rewrite Hz. simpl map. rewrite sum_Z_cons. lia.
    + unfold len in *. rewrite update_length. reflexivity.
    + rewrite Forall_forall in *. intros r Hr.
      rewrite nth_update_other; [apply Hzero'; assumption |].
      intros E. apply Hnotin. apply in_map_iff. exists r.
      split; [| assumption].
      destruct (Z.le_gt_cases (LocationID r) 0) as [Hle | Hgt]; lia.
Qed.

(** When no two rows of [customer_data] name the same location, no demand
    is lost: the demand vector handed to the solver sums to the sum of the
    rows' [Demand]s. *)
Theorem distinct_rows_keep_total_demand
        (randint : nat -> Z) (ortools : RoutingProblem -> result Solved)
        (fuel : nat) (request_data : Request) (data : Data) :
  In (CallSolve data)
     (snd (handle_vrp_request randint ortools fuel request_data)) ->
  NoDup (map LocationID (customer_rows request_data)) ->
  sum_Z (demands data) = sum_Z (map Demand (customer_rows request_data)).
Proof.
  intros Hcall Hnd. apply solve_called_iff in Hcall.
  destruct (prepare_data_fields randint request_data data Hcall)
    as (Hfill & _).
  apply fill_demands_sum in Hfill.
  - rewrite Hfill, sum_Z_repeat_zero. lia.
  - unfold len. rewrite repeat_length. lia.
  - assumption.
  - rewrite Forall_forall. intros row _. apply nth_repeat_zero.
Qed.

(** ** Examples of the further properties *)

(** The off-diagonal entries of the matrix for three locations. *)
Lemma three_locations_off_diagonal :
  exists matrix,
    create_distance_matrix standin_randint 3 = Ok matrix
    /\ forall i j,
         0 <= i < len matrix -> 0 <= j < len matrix -> i <> j ->
         exists x, cell matrix i j = Ok x /\ 500 <= x <= 50000.
Proof.
  apply (off_diagonal_distances_in_range
           standin_randint 3 standin_randint_range).
Defined.

Lemma three_customers_called :
  In (CallSolve three_customers_data)
     (snd (handle_vrp_request standin_randint standin_solver 6
                              three_customers)).
Proof. apply solve_called_iff. vm_compute. reflexivity. Qed.

(** The callbacks between the indices of customers 1 and 3. *)
Lemma callbacks_on_three_customers :
  exists c q,
    distance_callback three_customers_data
      (standin_manager (routing_problem three_customers_data)) 1 3 = Ok c
    /\ distance_callback three_customers_data
         (standin_manager (routing_problem three_customers_data)) 3 1 = Ok c
    /\ demand_callback three_customers_data
         (standin_manager (routing_problem three_customers_data)) 1 = Ok q.
Proof.
  apply (callbacks_are_defined_on_locations
           standin_randint standin_solver 6 three_customers
           three_customers_data
           (standin_manager (routing_problem three_customers_data)) 1 3
           three_customers_called).
  - vm_compute. split; [intros H; discriminate H | reflexivity].
  - vm_compute. split; [intros H; discriminate H | reflexivity].
Defined.

Lemma three_customers_body :
  get_solution_details
    6 three_customers_data
    (standin_manager (routing_problem three_customers_data))
    (standin_routing (routing_problem three_customers_data))
    (Some (standin_assignment (routing_problem three_customers_data)))
  = Some (optimal_body
            (standin_assignment (routing_problem three_customers_data))
            (routes_of_tours
               (standin_manager (routing_problem three_customers_data))
               (standin_routing (routing_problem three_customers_data))
               (standin_assignment (routing_problem three_customers_data))
               (range (num_vehicles three_customers_data)) [[1; 2; 3]])).
Proof.
  apply projection_of_tours.
  - apply Permutation_refl.
  - apply Forall2_cons; [route_step 10 | apply Forall2_nil].
  - simpl. lia.
Qed.

(** The shape of the body for the three customers. *)
Lemma three_customers_body_shape :
  solution_status
    (optimal_body
       (standin_assignment (routing_problem three_customers_data))
       (routes_of_tours
          (standin_manager (routing_problem three_customers_data))
          (standin_routing (routing_problem three_customers_data))
          (standin_assignment (routing_problem three_customers_data))
          (range (num_vehicles three_customers_data)) [[1; 2; 3]]))
  = "OPTIMAL"%string
  /\ error
       (optimal_body
          (standin_assignment (routing_problem three_customers_data))
          (routes_of_tours
             (standin_manager (routing_problem three_customers_data))
             (standin_routing (routing_problem three_customers_data))
             (standin_assignment (routing_problem three_customers_data))
             (range (num_vehicles three_customers_data)) [[1; 2; 3]]))
     = None
  /\ objective_value
       (optimal_body
          (standin_assignment (routing_problem three_customers_data))
          (routes_of_tours
             (standin_manager (routing_problem three_customers_data))
             (standin_routing (routing_problem three_customers_data))
             (standin_assignment (routing_problem three_customers_data))
             (range (num_vehicles three_customers_data)) [[1; 2; 3]]))
     = Some (ObjectiveValue
               (standin_assignment (routing_problem three_customers_data))
             # 1000)
  /\ exists rs,
       routes
         (optimal_body
            (standin_assignment (routing_problem three_customers_data))
            (routes_of_tours
               (standin_manager (routing_problem three_customers_data))
               (standin_routing (routing_problem three_customers_data))
               (standin_assignment (routing_problem three_customers_data))
               (range (num_vehicles three_customers_data)) [[1; 2; 3]]))
       = Some rs
       /\ map vehicle_id rs
          = map (fun v => v + 1) (range (num_vehicles three_customers_data))
       /\ Forall (fun rt =>
                    ~ In (depot_index three_customers_data) (route_nodes rt))
                 rs.
Proof.
  apply (optimal_body_shape
           6 three_customers_data
           (standin_manager (routing_problem three_customers_data))
           (standin_routing (routing_problem three_customers_data))
           (standin_assignment (routing_problem three_customers_data))).
  exact three_customers_body.
Defined.

(** The refused request is of the error kind. *)
Lemma bad_location_kind :
  (500 = 500
   /\ solution_status (fst (error_response
                              (ValueError (invalid_location_message 3 2))))
      = "ERROR"%string
   /\ routes (fst (error_response
                     (ValueError (invalid_location_message 3 2)))) = None
   /\ objective_value
        (fst (error_response
                (ValueError (invalid_location_message 3 2)))) = None
   /\ exists msg,
        error (fst (error_response
                      (ValueError (invalid_location_message 3 2))))
        = Some msg
        /\ In (Printed ("Error during VRP solving: " ++ msg)%string)
              (snd (handle_vrp_request standin_randint standin_solver 5
                                       bad_location)))
  \/ (500 = 200
      /\ error (fst (error_response
                       (ValueError (invalid_location_message 3 2)))) = None
      /\ (exists data,
             snd (handle_vrp_request standin_randint standin_solver 5
                                     bad_location)
             = [CallSolve data])
      /\ (fst (error_response (ValueError (invalid_location_message 3 2)))
          = no_solution_body
          \/ (solution_status
                (fst (error_response
                        (ValueError (invalid_location_message 3 2))))
              = "OPTIMAL"%string
              /\ exists rs,
                   routes (fst (error_response
                                  (ValueError
                                     (invalid_location_message 3 2))))
                   = Some rs
                   /\ len rs = len (fleet bad_location)))).
Proof.
  apply (response_kinds standin_randint standin_solver 5 bad_location
           (fst (error_response (ValueError (invalid_location_message 3 2))))
           500).
  reflexivity.
Defined.

(** The request [{}] enters the solver with the depot alone and no
    vehicle. *)
Lemma empty_request_is_accepted :
  snd (handle_vrp_request standin_randint standin_solver 5 empty_request)
  = CallSolve {| distance_matrix := [[0]];
                 demands := [0];
                 num_locations := 1;
                 num_vehicles := len (fleet empty_request);
                 depot_index := get (req_depot_index empty_request) 0;
                 vehicle_capacities := fleet empty_request |}
    :: match solve_vrp standin_solver
               {| distance_matrix := [[0]];
                  demands := [0];
                  num_locations := 1;
                  num_vehicles := len (fleet empty_request);
                  depot_index := get (req_depot_index empty_request) 0;
                  vehicle_capacities := fleet empty_request |} with
       | Ok _ => []
       | Raise e => [Printed (error_line e)]
       end.
Proof.
  apply (no_customers_is_accepted standin_randint standin_solver 5
                                  empty_request).
  reflexivity.
Defined.

(** The load 9 of the route through the three customers is their demand. *)
Lemma load_on_three_customers :
  exists rs,
    handle_vrp_request standin_randint standin_solver 6 three_customers
    = (Some (optimal_body
               (standin_assignment (routing_problem three_customers_data))
               rs, 200),
       [CallSolve three_customers_data])
    /\ Forall (fun rt =>
                 exists q0 load,
                   getitem (demands three_customers_data)
                           (depot_index three_customers_data) = Ok q0
                   /\ route_demand (demands three_customers_data)
                                   (route_nodes rt) = Ok load
                   /\ total_load rt = q0 + load
                   /\ (depot_index three_customers_data = 0 ->
                       total_load rt = load)) rs.
Proof.
  apply (total_load_is_route_demand
           standin_randint standin_solver 6 three_customers
           three_customers_data
           (standin_routing (routing_problem three_customers_data))
           (standin_manager (routing_problem three_customers_data))
           (standin_assignment (routing_problem three_customers_data))).
  - vm_compute. reflexivity.
  - exact three_customers_solved.
  - exact three_customers_valid.
  - simpl. lia.
Defined.

Lemma idle_fleet_valid :
  valid_assignment
    (routing_problem (lone_depot (fleet idle_fleet)))
    (standin_routing (routing_problem (lone_depot (fleet idle_fleet))))
    (standin_manager (routing_problem (lone_depot (fleet idle_fleet))))
    (standin_assignment (routing_problem (lone_depot (fleet idle_fleet)))).
Proof.
  exists [[]; []]. split.
  - apply Forall2_cons; [route_step 10 |].
    apply Forall2_cons; [route_step 3 | apply Forall2_nil].
  - apply Permutation_refl.
Qed.

Lemma idle_fleet_solved :
  solve_vrp standin_solver (lone_depot (fleet idle_fleet))
  = Ok (standin_routing (routing_problem (lone_depot (fleet idle_fleet))),
        standin_manager (routing_problem (lone_depot (fleet idle_fleet))),
        Some (standin_assignment
                (routing_problem (lone_depot (fleet idle_fleet))))).
Proof.
  rewrite standin_solves.
  replace (standin_feasible (routing_problem (lone_depot (fleet idle_fleet))))
    with true by (vm_compute; reflexivity).
  reflexivity.
Qed.

(** Two vehicles and no customer: two empty routes. *)
Lemma idle_fleet_routes :
  handle_vrp_request standin_randint standin_solver 3 idle_fleet
  = (Some (optimal_body
             (standin_assignment
                (routing_problem (lone_depot (fleet idle_fleet))))
             (map (fun v => {| vehicle_id := v + 1;
                               route_nodes := [];
                               total_distance := 0 # 1000;
                               total_load := 0 |})
                  (range (len (fleet idle_fleet)))), 200),
     [CallSolve (lone_depot (fleet idle_fleet))]).
Proof.
  apply (no_customers_gives_empty_routes
           standin_randint standin_solver 3 idle_fleet
           (standin_routing (routing_problem (lone_depot (fleet idle_fleet))))
           (standin_manager (routing_problem (lone_depot (fleet idle_fleet))))
           (standin_assignment
              (routing_problem (lone_depot (fleet idle_fleet))))).
  - reflexivity.
  - reflexivity.
  - exact idle_fleet_solved.
  - exact idle_fleet_valid.
  - lia.
Defined.

(** The three customers name three locations: the vector sums to 9. *)
Lemma three_customers_total_demand :
  sum_Z (demands three_customers_data)
  = sum_Z (map Demand (customer_rows three_customers)).
Proof.
  apply (distinct_rows_keep_total_demand
           standin_randint standin_solver 6 three_customers
           three_customers_data three_customers_called).
  repeat constructor; simpl; intuition discriminate.
Defined.
